(** * golr: a live-reload supervisor for Go programs

    A shallow embedding of the two variants of the program,
    [src/golr.go] (module [Golr]) and [src/unnamed/part_000] (module
    [GolrArgs]), and the properties of the change scanner, the builder,
    the process runner and the coordinator loop of [main].

    The operating system is an oracle [OS]: it answers the calls one loop
    iteration makes ([time.Now], [os.Stat], [exec.Cmd.CombinedOutput],
    [os.StartProcess], [Process.Kill], and which communication the
    [select] statement finds ready).  Every method returns its result, the
    updated receiver and the list of effects it performed, in program
    order. *)

From Stdlib Require Import ZArith List String Bool Lia DecimalString.
Import ListNotations.
Open Scope string_scope.
Open Scope list_scope.
Open Scope Z_scope.

(** ** The Go runtime as the program sees it *)

(** [time.Time] and [time.Duration], in nanoseconds. *)
Definition Time := Z.
Definition Duration := Z.
Definition Millisecond : Duration := 1000000.

(** [t.After(u)]: [t] is strictly later than [u]. *)
Definition After (t u : Time) : bool := u <? t.

(** A non-nil [error] value, by its message; [nil] is [None]. *)
Definition error := string.

(** [[]byte], the captured output of a command. *)
Definition bytes := list Byte.byte.

(** [*os.Process], [*os.File] (the three standard streams), [os.Signal]
    (the two signals [main] subscribes to) and [*os.ProcessState]. *)
Record Process := mkProcess { Pid : Z }.
Inductive File := Stdin | Stdout | Stderr.
Inductive Signal := Interrupt | Kill.
Record ProcessState := mkProcessState { ExitCode : Z }.

(** [type PStateErr struct { PState *os.ProcessState; Err error }] *)
Record PStateErr := mkPStateErr {
  PState : option ProcessState;
  Err : option error
}.

(** [chan PStateErr], by identity. *)
Definition Chan := nat.

(** The operands of the [fmt] calls. *)
Inductive Arg :=
| AStr (s : string)
| AStrs (l : list string)
| ABytes (b : bytes)
| ADuration (d : Duration)
| AErr (e : error)
| ASignal (s : Signal).

(** The effects of the program on the outside world.  [GoWait outfile p c]
    is the goroutine that [spawn] starts: it prints "Waiting on outfile",
    blocks in [p.Wait()] and sends the result on [c]. *)
Inductive Event :=
| Printf (format : string) (args : list Arg)
| Println (args : list Arg)
| Exec (name : string) (args : list string)
| StartProcess (name : string) (argv : list string) (files : list File)
| GoWait (outfile : string) (p : Process) (c : Chan)
| ProcKill (p : Process)
| Sleep (d : Duration).

(** What running a command came to: it ran and exited with [status],
    having written [out] to its standard output and standard error, or it
    could not be started at all (the executable is missing, or the fork
    failed). *)
Inductive CmdResult :=
| Exited (status : Z) (out : bytes)
| NotStarted (err : error).

(** What the [select] of the coordinator finds: no communication ready
    (the [default] case), a message on [pchan], or a signal on [cchan]. *)
Inductive Ready :=
| NoComm
| ProcComm (pstate : PStateErr)
| SigComm (sig : Signal).

(** The answers of the operating system during one loop iteration. *)
Record OS := mkOS {
  os_now : Time;
  os_since : Time -> Duration;
  os_stat : string -> option Time;
  os_run : string -> list string -> CmdResult;
  os_start_process : string -> list string -> list File -> Process + error;
  os_kill : Process -> option error;
  os_select : Ready
}.

(** The message of the [*exec.ExitError] of a command that exited with
    [status]. *)
Definition ExitError (status : Z) : error :=
  ("exit status " ++ NilZero.string_of_int (Z.to_int status))%string.

(** [exec.Command(name, args...).CombinedOutput()]: the captured output
    and the error, which is nil exactly when the command ran and exited
    with status 0.  A command that could not be started has captured
    nothing. *)
Definition os_combined_output (os : OS) (name : string) (args : list string)
  : bytes * option error :=
  match os_run os name args with
  | Exited status out =>
      (out, if status =? 0 then None else Some (ExitError status))
  | NotStarted err => ([], Some err)
  end.

Arguments os_combined_output : simpl never.

(** ** Declarations that are the same in both files *)

(** [type Scanner struct { srcs []string; dirs []string; mtime time.Time }] *)
Record Scanner := mkScanner {
  s_srcs : list string;
  s_dirs : list string;
  s_mtime : Time
}.

(** [type Builder struct { srcs []string; outfile string }] *)
Record Builder := mkBuilder {
  b_srcs : list string;
  b_outfile : string
}.

(** [const ( building = iota; running; killing; exiting )] *)
Inductive State := building | running | killing | exiting.

Definition State_eqb (a b : State) : bool :=
  match a, b with
  | building, building | running, running
  | killing, killing | exiting, exiting => true
  | _, _ => false
  end.

(** ** src/golr.go *)

Module Golr.

(** [type Runner struct { outfile string; pchan chan PStateErr; proc *os.Process }] *)
Record Runner := mkRunner {
  r_outfile : string;
  r_pchan : Chan;
  r_proc : option Process
}.

Definition NewScanner (os : OS) (srcs dirs : list string) : Scanner :=
  {| s_srcs := srcs; s_dirs := dirs; s_mtime := os_now os |}.

(** The [range] loop of [detect] over the remaining files [fs]. *)
Fixpoint detect_range (os : OS) (fs : list string) (s : Scanner)
  : bool * Scanner * list Event :=
  match fs with
  | [] => (false, s, [])
  | f :: fs' =>
      match os_stat os f with
      | Some mtime =>
          if After mtime (s_mtime s)
          then (true,
                {| s_srcs := s_srcs s; s_dirs := s_dirs s; s_mtime := mtime |},
                [Printf "Changed: %s\n" [AStr f]])
          else detect_range os fs' s
      | None => detect_range os fs' s
      end
  end.

Definition detect (os : OS) (s : Scanner) : bool * Scanner * list Event :=
  detect_range os (s_srcs s) s.

Definition NewBuilder (outfile : string) (srcs : list string) : Builder :=
  {| b_srcs := srcs; b_outfile := outfile |}.

Definition build (os : OS) (b : Builder) : option error * list Event :=
  let startTime := os_now os in
  let args := "build" :: "-o" :: b_outfile b :: b_srcs b in
  let '(out, err) := os_combined_output os "go" args in
  let elapsedTime := os_since os startTime in
  (err,
   [Printf "Building: %s\n" [AStrs (b_srcs b)]; Exec "go" args] ++
   match err with
   | Some _ => [Printf "Build failed:\n%s\n" [ABytes out]]
   | None => [Printf "Build done: %s\n" [ADuration elapsedTime]]
   end).

Definition NewRunner (outfile : string) (pchan : Chan) : Runner :=
  {| r_outfile := outfile; r_pchan := pchan; r_proc := None |}.

Definition spawn (os : OS) (r : Runner) : option error * Runner * list Event :=
  let argv := [r_outfile r] in
  let files := [Stdin; Stdout; Stderr] in
  match os_start_process os (r_outfile r) argv files with
  | inr err =>
      (Some err, r,
       [Printf "Starting %s\n" [AStr (r_outfile r)];
        StartProcess (r_outfile r) argv files])
  | inl proc =>
      (None,
       {| r_outfile := r_outfile r; r_pchan := r_pchan r; r_proc := Some proc |},
       [Printf "Starting %s\n" [AStr (r_outfile r)];
        StartProcess (r_outfile r) argv files;
        GoWait (r_outfile r) proc (r_pchan r)])
  end.

(** [r.proc.Kill()] returns an error that [kill] drops. *)
Definition kill (os : OS) (r : Runner) : bool * Runner * list Event :=
  match r_proc r with
  | Some p =>
      let _ := os_kill os p in
      (true,
       {| r_outfile := r_outfile r; r_pchan := r_pchan r; r_proc := None |},
       [ProcKill p])
  | None => (false, r, [])
  end.

(** The variables of [main] that live across loop iterations. *)
Record Main := mkMain {
  scanner : Scanner;
  builder : Builder;
  runner : Runner;
  state : State
}.

(** [main] from "Channels and signals" to the loop: [srcs] are the
    positional arguments and [outfile] the absolute output path. *)
Definition init (os : OS) (srcs : list string) (outfile : string) (pchan : Chan)
  : Main :=
  {| scanner := NewScanner os srcs [];
     builder := NewBuilder outfile srcs;
     runner := NewRunner outfile pchan;
     state := building |}.

(** The [select] statement of the loop. *)
Definition select (os : OS) (m : Main) : Main * list Event :=
  match os_select os with
  | NoComm =>
      let '(changed, s', t1) := detect os (scanner m) in
      if changed then
        let '(killed, r', t2) := kill os (runner m) in
        ({| scanner := s'; builder := builder m; runner := r';
            state := if killed then killing else building |},
         t1 ++ t2)
      else
        ({| scanner := s'; builder := builder m; runner := runner m;
            state := state m |}, t1)
  | ProcComm pstate =>
      ({| scanner := scanner m; builder := builder m; runner := runner m;
          state := if State_eqb (state m) killing then building else exiting |},
       [match Err pstate with
        | Some e => Printf "Process exited: %s\n" [AErr e]
        | None => Printf "Process exited without error\n" []
        end])
  | SigComm sig =>
      ({| scanner := scanner m; builder := builder m; runner := runner m;
          state := exiting |},
       [Printf "Signal: %s\n" [ASignal sig]])
  end.

(** One pass through the body of [for (state != exiting)]. *)
Definition iteration (os : OS) (m : Main) : Main * list Event :=
  match state m with
  | building =>
      let '(err, t1) := build os (builder m) in
      match err with
      | Some e =>
          ({| scanner := scanner m; builder := builder m; runner := runner m;
              state := running |},
           [Printf "Building...\n" []] ++ t1 ++
           [Println [AStr "Build failed"; AErr e]])
      | None =>
          let '(_, r', t2) := spawn os (runner m) in
          ({| scanner := scanner m; builder := builder m; runner := r';
              state := running |},
           [Printf "Building...\n" []] ++ t1 ++ t2)
      end
  | running | killing =>
      let '(m', t) := select os m in
      (m', t ++ [Sleep (250 * Millisecond)])
  | exiting => (m, [])
  end.

(** The loop, with one oracle per iteration; it stops when the state is
    [exiting] or when the oracles run out. *)
Fixpoint loop (oss : list OS) (m : Main) : Main * list Event :=
  match oss with
  | [] => (m, [])
  | os :: oss' =>
      match state m with
      | exiting => (m, [])
      | _ =>
          let '(m1, t1) := iteration os m in
          let '(m2, t2) := loop oss' m1 in
          (m2, t1 ++ t2)
      end
  end.

(** [func FatalError(msg string)]: the line it prints and the status it
    hands to [os.Exit], after which nothing else runs. *)
Definition FatalError (msg : string) : list Event * Z :=
  ([Println [AStr "*** Error:"; AStr msg]], 1).

(** [type strslice []string] and its [Set] method, which the flag parser
    calls once for every [-d] on the command line. *)
Definition strslice := list string.

Definition Set_ (s : strslice) (value : string)
  : option error * strslice * list Event :=
  (None, s ++ [value], [Printf "%s\n" [AStr value]]).

(** [type Flags struct { root string; outfile string; dirs strslice }] *)
Record Flags := mkFlags {
  root : string;
  outfile : string;
  dirs : strslice
}.

End Golr.

(** ** src/unnamed/part_000 *)

Module GolrArgs.

(** [type Runner struct { outfile string; args []string; pchan chan PStateErr;
    proc *os.Process }] *)
Record Runner := mkRunner {
  r_outfile : string;
  r_args : list string;
  r_pchan : Chan;
  r_proc : option Process
}.

Definition NewScanner (os : OS) (srcs dirs : list string) : Scanner :=
  {| s_srcs := srcs; s_dirs := dirs; s_mtime := os_now os |}.

Fixpoint detect_range (os : OS) (fs : list string) (s : Scanner)
  : bool * Scanner * list Event :=
  match fs with
  | [] => (false, s, [])
  | f :: fs' =>
      match os_stat os f with
      | Some mtime =>
          if After mtime (s_mtime s)
          then (true,
                {| s_srcs := s_srcs s; s_dirs := s_dirs s; s_mtime := mtime |},
                [Printf "Changed: %s\n" [AStr f]])
          else detect_range os fs' s
      | None => detect_range os fs' s
      end
  end.

Definition detect (os : OS) (s : Scanner) : bool * Scanner * list Event :=
  detect_range os (s_srcs s) s.

Definition NewBuilder (outfile : string) (srcs : list string) : Builder :=
  {| b_srcs := srcs; b_outfile := outfile |}.

Definition build (os : OS) (b : Builder) : option error * list Event :=
  let startTime := os_now os in
  let args := "build" :: "-o" :: b_outfile b :: b_srcs b in
  let '(out, err) := os_combined_output os "go" args in
  let elapsedTime := os_since os startTime in
  (err,
   [Printf "Building: %s\n" [AStrs (b_srcs b)]; Exec "go" args] ++
   match err with
   | Some _ => [Printf "Build failed:\n%s\n" [ABytes out]]
   | None => [Printf "Build done: %s\n" [ADuration elapsedTime]]
   end).

Definition NewRunner (outfile : string) (args : list string) (pchan : Chan)
  : Runner :=
  {| r_outfile := outfile; r_args := args; r_pchan := pchan; r_proc := None |}.

Definition spawn (os : OS) (r : Runner) : option error * Runner * list Event :=
  let argv := [r_outfile r] ++ r_args r in
  let files := [Stdin; Stdout; Stderr] in
  match os_start_process os (r_outfile r) argv files with
  | inr err =>
      (Some err, r,
       [Printf "Starting %s %s\n" [AStr (r_outfile r); AStrs (tl argv)];
        StartProcess (r_outfile r) argv files])
  | inl proc =>
      (None,
       {| r_outfile := r_outfile r; r_args := r_args r; r_pchan := r_pchan r;
          r_proc := Some proc |},
       [Printf "Starting %s %s\n" [AStr (r_outfile r); AStrs (tl argv)];
        StartProcess (r_outfile r) argv files;
        GoWait (r_outfile r) proc (r_pchan r)])
  end.

Definition kill (os : OS) (r : Runner) : bool * Runner * list Event :=
  match r_proc r with
  | Some p =>
      let _ := os_kill os p in
      (true,
       {| r_outfile := r_outfile r; r_args := r_args r; r_pchan := r_pchan r;
          r_proc := None |},
       [ProcKill p])
  | None => (false, r, [])
  end.

(** The first loop of [main]: the arguments before the first "--" stay
    with the tool, those after it go to the child.  The result is
    [(args_this, args_child)]. *)
Fixpoint split_args (args_this : list string) : list string * list string :=
  match args_this with
  | [] => ([], [])
  | val :: rest =>
      if String.eqb val "--" then ([], rest)
      else let '(this, child) := split_args rest in (val :: this, child)
  end.

Record Main := mkMain {
  scanner : Scanner;
  builder : Builder;
  runner : Runner;
  state : State
}.

(** [main] from "Channels and signals" to the loop: [srcs] and [dirs] are
    what the flag parser returns, [args_child] the second component of
    [split_args]. *)
Definition init (os : OS) (srcs dirs : list string) (outfile : string)
  (args_child : list string) (pchan : Chan) : Main :=
  {| scanner := NewScanner os srcs dirs;
     builder := NewBuilder outfile srcs;
     runner := NewRunner outfile args_child pchan;
     state := building |}.

Definition select (os : OS) (m : Main) : Main * list Event :=
  match os_select os with
  | NoComm =>
      let '(changed, s', t1) := detect os (scanner m) in
      if changed then
        let '(killed, r', t2) := kill os (runner m) in
        ({| scanner := s'; builder := builder m; runner := r';
            state := if killed then killing else building |},
         t1 ++ t2)
      else
        ({| scanner := s'; builder := builder m; runner := runner m;
            state := state m |}, t1)
  | ProcComm pstate =>
      ({| scanner := scanner m; builder := builder m; runner := runner m;
          state := if State_eqb (state m) killing then building else exiting |},
       [match Err pstate with
        | Some e => Printf "Process exited: %s\n" [AErr e]
        | None => Printf "Process exited without error\n" []
        end])
  | SigComm sig =>
      ({| scanner := scanner m; builder := builder m; runner := runner m;
          state := exiting |},
       [Printf "Signal: %s\n" [ASignal sig]])
  end.

Definition iteration (os : OS) (m : Main) : Main * list Event :=
  match state m with
  | building =>
      let '(err, t1) := build os (builder m) in
      match err with
      | Some e =>
          ({| scanner := scanner m; builder := builder m; runner := runner m;
              state := running |},
           t1 ++ [Println [AStr "Build failed"; AErr e]])
      | None =>
          let '(_, r', t2) := spawn os (runner m) in
          ({| scanner := scanner m; builder := builder m; runner := r';
              state := running |},
           t1 ++ t2)
      end
  | running | killing =>
      let '(m', t) := select os m in
      (m', t ++ [Sleep (250 * Millisecond)])
  | exiting => (m, [])
  end.

Fixpoint loop (oss : list OS) (m : Main) : Main * list Event :=
  match oss with
  | [] => (m, [])
  | os :: oss' =>
      match state m with
      | exiting => (m, [])
      | _ =>
          let '(m1, t1) := iteration os m in
          let '(m2, t2) := loop oss' m1 in
          (m2, t1 ++ t2)
      end
  end.

Definition FatalError (msg : string) : list Event * Z :=
  ([Println [AStr "*** Error:"; AStr msg]], 1).

(** [type Flags struct { OutFile string; Dirs []string }] *)
Record Flags := mkFlags {
  OutFile : string;
  Dirs : list string
}.

(** [main]: [args] is [os.Args[1:]], [parse] answers [flags.ParseArgs]
    with the options and the remaining arguments, or an error, and [abs]
    answers [filepath.Abs].  The result is what was done and the exit
    status, or [None] when the loop is still running after the last oracle
    of [oss]. *)
Definition main (os : OS)
  (parse : list string -> (Flags * list string) + error)
  (abs : string -> string + error) (args : list string) (pchan : Chan)
  (oss : list OS) : option (list Event * Z) :=
  let '(args_this, args_child) := split_args args in
  match parse args_this with
  | inr _ => Some ([], 1)
  | inl (opts, srcs) =>
      if Nat.eqb (List.length srcs) 0 then Some (FatalError "No source files")
      else if Nat.eqb (String.length (OutFile opts)) 0
      then Some (FatalError "No output file")
      else
        match abs (OutFile opts) with
        | inr err => Some (FatalError err)
        | inl outfile =>
            let '(m, t) :=
              loop oss (init os srcs (Dirs opts) outfile args_child pchan) in
            match state m with
            | exiting => Some (t ++ [Printf "Done running\n" []], 0)
            | _ => None
            end
        end
  end.

End GolrArgs.

(** ** Notions used by the statements *)

(** A run of [detect] calls, one oracle per call; the scanner after it. *)
Definition detect_seq (oss : list OS) (s : Scanner) : Scanner :=
  fold_left (fun s os => snd (fst (Golr.detect os s))) oss s.

(** The states the coordinator of [src/golr.go] can be in at the head of
    its loop. *)
Inductive reachable : Golr.Main -> Prop :=
| reach_init : forall os srcs outfile pchan,
    reachable (Golr.init os srcs outfile pchan)
| reach_iteration : forall os m,
    reachable m -> Golr.state m <> exiting ->
    reachable (fst (Golr.iteration os m)).

(** The shape of every result of the scan loop: either it found nothing
    and changed nothing, or it stopped at the first file that could be
    stat'ed and is newer than the baseline. *)
Inductive detect_result (os : OS) (fs : list string) (s : Scanner)
  : bool * Scanner * list Event -> Prop :=
| detect_none :
    (forall g t, In g fs -> os_stat os g = Some t -> t <= s_mtime s) ->
    detect_result os fs s (false, s, [])
| detect_first : forall pre f post T,
    fs = pre ++ f :: post ->
    (forall g t, In g pre -> os_stat os g = Some t -> t <= s_mtime s) ->
    os_stat os f = Some T ->
    s_mtime s < T ->
    detect_result os fs s
      (true, {| s_srcs := s_srcs s; s_dirs := s_dirs s; s_mtime := T |},
       [Printf "Changed: %s\n" [AStr f]]).

(** Output events, and output events that print an error value. *)
Definition is_print (e : Event) : bool :=
  match e with
  | Printf _ _ | Println _ => true
  | _ => false
  end.

Definition is_err_arg (a : Arg) : bool :=
  match a with AErr _ => true | _ => false end.

Definition logs_error (e : Event) : bool :=
  match e with
  | Printf _ args | Println args => existsb is_err_arg args
  | _ => false
  end.

(** What an event puts on the standard output: the line of a [fmt] call,
    and for a started waiter the line "Waiting on ..." that its goroutine
    prints (placed where the goroutine is started; the scheduler may print
    it later). *)
Definition printed (e : Event) : list Event :=
  match e with
  | Printf _ _ | Println _ => [e]
  | GoWait outfile _ _ => [Printf "Waiting on %s\n" [AStr outfile]]
  | _ => []
  end.

(** What a run printed, and what it asked of the operating system. *)
Definition prints (t : list Event) : list Event := flat_map printed t.
Definition requests (t : list Event) : list Event :=
  filter (fun e => negb (is_print e)) t.

Definition is_exec (e : Event) : bool :=
  match e with Exec _ _ => true | _ => false end.



(** The watched files that can be stat'ed and are newer than the baseline
    of [s]. *)
Definition newer (os : OS) (s : Scanner) : list string :=
  filter (fun f => match os_stat os f with
                   | Some t => After t (s_mtime s)
                   | None => false
                   end) (s_srcs s).

(** The flag parser meeting [-d v1 ... -d vn]: one call of [Set] for each
    value, in order. *)
Definition Set_all (s : Golr.strslice) (values : list string)
  : Golr.strslice * list Event :=
  fold_left (fun acc v => (snd (fst (Golr.Set_ (fst acc) v)),
                           snd acc ++ snd (Golr.Set_ (fst acc) v)))
            values (s, []).

(** The commands of a run that the operating system really ran. *)
Definition ran (os : OS) (t : list Event) : list Event :=
  filter (fun e => match e with
                   | Exec name args =>
                       match os_run os name args with
                       | Exited _ _ => true
                       | NotStarted _ => false
                       end
                   | _ => false
                   end) t.

(** [main] of [golr.go] with its command line. *)
Module GolrCmd.

(** What [flag.Parse()] comes to on a command line.  Either the parser
    ends the process itself with [status] (2 on a malformed command line,
    and the status of the help request on [-h]), having called [Set] for
    the [-d] values [dvalues] it had met by then; or it returns, having
    stored the value of [-r], the value of [-o] or its default, called
    [Set] for the [-d] values in order, and left the positional arguments
    [args].  What the parser itself writes goes to the standard error. *)
Inductive Parse :=
| ParseExit (dvalues : list string) (status : Z)
| Parsed (root outfile : string) (dvalues : list string) (args : list string).

(** [main]: [args] is the command line, [parse] answers [flag.Parse()]
    and [abs] answers [filepath.Abs].  The result is what was done and
    the exit status, or [None] when the loop is still running after the
    last oracle of [oss]. *)
Definition main (os : OS) (parse : list string -> Parse)
  (abs : string -> string + error) (args : list string) (pchan : Chan)
  (oss : list OS) : option (list Event * Z) :=
  match parse args with
  | ParseExit dvalues status => Some (snd (Set_all [] dvalues), status)
  | Parsed root outfile dvalues srcs =>
      let '(dirs, echo) := Set_all [] dvalues in
      let flags :=
        {| Golr.root := root; Golr.outfile := outfile; Golr.dirs := dirs |} in
      if Nat.eqb (List.length srcs) 0
      then Some (echo ++ fst (Golr.FatalError "No source files"), 1)
      else
        match abs (Golr.outfile flags) with
        | inr err => Some (echo ++ fst (Golr.FatalError err), 1)
        | inl outfile =>
            let '(m, t) := Golr.loop oss (Golr.init os srcs outfile pchan) in
            match Golr.state m with
            | exiting => Some (echo ++ t ++ [Printf "Done running\n" []], 0)
            | _ => None
            end
        end
  end.

End GolrCmd.

(** Events by kind. *)
Definition is_start (e : Event) : bool :=
  match e with StartProcess _ _ _ => true | _ => false end.
Definition is_gowait (e : Event) : bool :=
  match e with GoWait _ _ _ => true | _ => false end.
Definition is_kill (e : Event) : bool :=
  match e with ProcKill _ => true | _ => false end.

(** What the loop may ask of the operating system, given the builder, the
    output file, the argument vector of the child and the completion
    channel it was started with: the one build command, the start of the
    output file with that argument vector and the three standard streams,
    a waiter that reports on that channel, and the polling delay. *)
Definition request_of (b : Builder) (outfile : string) (argv : list string)
  (pchan : Chan) (e : Event) : Prop :=
  match e with
  | Exec name args =>
      name = "go" /\ args = "build" :: "-o" :: b_outfile b :: b_srcs b
  | StartProcess name argv' files =>
      name = outfile /\ argv' = argv /\ files = [Stdin; Stdout; Stderr]
  | GoWait o _ c => o = outfile /\ c = pchan
  | Sleep d => d = 250 * Millisecond
  | _ => True
  end.

(** What the loop keeps from one set of loop variables to a later one:
    the builder, the watched files and directories, the output file and
    the channel; the baseline may only advance. *)
Definition same_config (m m' : Golr.Main) : Prop :=
  Golr.builder m' = Golr.builder m /\
  s_srcs (Golr.scanner m') = s_srcs (Golr.scanner m) /\
  s_dirs (Golr.scanner m') = s_dirs (Golr.scanner m) /\
  s_mtime (Golr.scanner m) <= s_mtime (Golr.scanner m') /\
  Golr.r_outfile (Golr.runner m') = Golr.r_outfile (Golr.runner m) /\
  Golr.r_pchan (Golr.runner m') = Golr.r_pchan (Golr.runner m).



(** ** Sample inputs *)

(** A file system given by a table of modification times; a file that is
    not in the table cannot be stat'ed. *)
Definition stat_table (tbl : list (string * Time)) (f : string) : option Time :=
  option_map snd (find (fun e => String.eqb (fst e) f) tbl).

Definition sample_os (tbl : list (string * Time))
  (compiler : CmdResult) (start : Process + error)
  (killed : option error) (ready : Ready) : OS :=
  {| os_now := 0;
     os_since := fun t => 1500 * Millisecond;
     os_stat := stat_table tbl;
     os_run := fun _ _ => compiler;
     os_start_process := fun _ _ _ => start;
     os_kill := fun _ => killed;
     os_select := ready |}.

Definition child1 : Process := {| Pid := 41 |}.
Definition child2 : Process := {| Pid := 42 |}.
Definition exited : PStateErr :=
  {| PState := Some {| ExitCode := 0 |}; Err := None |}.

(** Nothing has been modified since the start. *)
Definition quiet : list (string * Time) := [("a.go", -10); ("b.go", -20)].
(** Both sources were written after the start, [b.go] last. *)
Definition two_writes : list (string * Time) := [("a.go", 5); ("b.go", 7)].

Definition os_build_ok : OS :=
  sample_os quiet (Exited 0 []) (inl child1) None NoComm.
Definition os_build_ok2 : OS :=
  sample_os two_writes (Exited 0 []) (inl child2) None NoComm.
Definition os_build_fails : OS :=
  sample_os quiet (Exited 1 (String.list_byte_of_string "a.go:1: syntax error"))
            (inl child1) None NoComm.
Definition os_go_missing : OS :=
  sample_os quiet (NotStarted "exec: go: executable file not found in $PATH")
            (inl child1) None NoComm.
Definition os_start_fails : OS :=
  sample_os quiet (Exited 0 []) (inr "fork/exec /tmp/lr-bin: permission denied")
            None NoComm.
Definition os_changed : OS :=
  sample_os two_writes (Exited 0 []) (inl child2) None NoComm.
Definition os_changed_kill_fails : OS :=
  sample_os two_writes (Exited 0 []) (inl child2)
            (Some "os: process already finished") NoComm.
Definition os_child_exit : OS :=
  sample_os quiet (Exited 0 []) (inl child2) None (ProcComm exited).
Definition os_signal : OS :=
  sample_os quiet (Exited 0 []) (inl child2) None (SigComm Interrupt).

Definition sources : list string := ["a.go"; "b.go"].
Definition scanner0 : Scanner :=
  {| s_srcs := sources; s_dirs := []; s_mtime := 0 |}.
Definition builder0 : Builder := Golr.NewBuilder "/tmp/lr-bin" sources.
Definition main0 : Golr.Main := Golr.init os_build_ok sources "/tmp/lr-bin" 0%nat.
Definition runner_idle : Golr.Runner := Golr.NewRunner "/tmp/lr-bin" 0%nat.
Definition runner_live : Golr.Runner :=
  {| Golr.r_outfile := "/tmp/lr-bin"; Golr.r_pchan := 0%nat;
     Golr.r_proc := Some child1 |}.

(** Command lines: [filepath.Abs] that prefixes the working directory or
    fails, the options of [golr.go], and a flag parser for [part_000] that
    knows [-o FILE] and takes everything else as a source. *)
Definition abs_tmp (f : string) : string + error := inl ("/tmp/" ++ f)%string.
Definition abs_fails (f : string) : string + error := inr "getwd: no such file".

(** A parser for [golr.go] that knows the command lines of the samples:
    [-h] ends the process with status 0, an unknown flag with status 2
    after the [-d] before it. *)
Definition parse_golr (args : list string) : GolrCmd.Parse :=
  match args with
  | ["-h"] => GolrCmd.ParseExit [] 0
  | ["-d"; d; "-x"] => GolrCmd.ParseExit [d] 2
  | ["-d"; d] => GolrCmd.Parsed "" "lr-bin" [d] []
  | "-d" :: d :: srcs => GolrCmd.Parsed "" "lr-bin" [d] srcs
  | srcs => GolrCmd.Parsed "" "lr-bin" [] srcs
  end.

Fixpoint parse_o (args : list string) : GolrArgs.Flags * list string :=
  match args with
  | [] => ({| GolrArgs.OutFile := "lr-bin"; GolrArgs.Dirs := [] |}, [])
  | a :: rest =>
      if String.eqb a "-o" then
        match rest with
        | f :: rest' =>
            ({| GolrArgs.OutFile := f; GolrArgs.Dirs := [] |},
             snd (parse_o rest'))
        | [] => parse_o rest
        end
      else (fst (parse_o rest), a :: snd (parse_o rest))
  end.

Definition parse_sample (args : list string)
  : (GolrArgs.Flags * list string) + error :=
  if existsb (String.eqb "-h") args then inr "help requested"
  else inl (parse_o args).

(** * Properties *)

(** ** The change scanner *)

Lemma After_spec (t u : Time) : After t u = true <-> u < t.
Proof. unfold After. apply Z.ltb_lt. Qed.

Lemma After_false (t u : Time) : After t u = false <-> t <= u.
Proof. unfold After. rewrite Z.ltb_ge. reflexivity. Qed.

Lemma detect_range_result (os : OS) (s : Scanner) (fs : list string) :
  detect_result os fs s (Golr.detect_range os fs s).
Proof.
  induction fs as [|f fs IH]; simpl.
  - constructor. intros g t [].
  - destruct (os_stat os f) as [T|] eqn:Hst.
    + destruct (After T (s_mtime s)) eqn:Haft.
      * apply (detect_first os (f :: fs) s [] f fs T); auto.
        -- intros g t [].
        -- now apply After_spec.
      * apply After_false in Haft.
        inversion IH as [Hall Heq | pre f' post T' Hfs Hpre Hf' Hlt Heq].
        -- constructor. intros g t [<-|Hin] Hg; [congruence | eauto].
        -- apply (detect_first os (f :: fs) s (f :: pre) f' post T'); auto.
           ++ now rewrite Hfs.
           ++ intros g t [<-|Hin] Hg; [congruence | eauto].
    + inversion IH as [Hall Heq | pre f' post T' Hfs Hpre Hf' Hlt Heq].
      * constructor. intros g t [<-|Hin] Hg; [congruence | eauto].
      * apply (detect_first os (f :: fs) s (f :: pre) f' post T'); auto.
        -- now rewrite Hfs.
        -- intros g t [<-|Hin] Hg; [congruence | eauto].
Qed.

Lemma detect_result_of (os : OS) (s : Scanner) :
  detect_result os (s_srcs s) s (Golr.detect os s).
Proof. apply detect_range_result. Qed.

Lemma detect_srcs (os : OS) (s : Scanner) :
  s_srcs (snd (fst (Golr.detect os s))) = s_srcs s.
Proof.
  destruct (detect_result_of os s); reflexivity.
Qed.

Lemma detect_false_iff (os : OS) (s : Scanner) :
  fst (fst (Golr.detect os s)) = false <->
  forall g t, In g (s_srcs s) -> os_stat os g = Some t -> t <= s_mtime s.
Proof.
  destruct (detect_result_of os s) as [Hall | pre f post T Hfs Hpre Hf Hlt]; simpl.
  - split; auto.
  - split; [discriminate|].
    intros Hall. specialize (Hall f T).
    rewrite Hfs in Hall. specialize (Hall (in_elt f pre post) Hf). lia.
Qed.

Lemma detect_mtime_step (os : OS) (s : Scanner) :
  (fst (fst (Golr.detect os s)) = false /\
   snd (fst (Golr.detect os s)) = s) \/
  (fst (fst (Golr.detect os s)) = true /\
   s_mtime s < s_mtime (snd (fst (Golr.detect os s)))).
Proof.
  destruct (detect_result_of os s); simpl; auto.
Qed.

(** C3, as the code has it.  [detect] returns true exactly when some
    watched file can be stat'ed and its modification time is strictly after
    the baseline.  When it returns true it has stopped at the first such
    file [f] in list order (every file before it either cannot be stat'ed
    or is not newer), has set the baseline to the modification time [T] of
    [f], and has printed the one line for [f]; when it returns false it has
    changed and printed nothing.  A file whose stat fails takes no part.  A
    second call against the same file system returns false exactly when no
    watched file is newer than the new baseline; a second changed file
    later in the list with a later time makes it return true again. *)
Theorem detect_first_qualifying_file_wins (os : OS) (s : Scanner) :
  let changed := fst (fst (Golr.detect os s)) in
  let s' := snd (fst (Golr.detect os s)) in
  let out := snd (Golr.detect os s) in
  (changed = true <->
   exists f T, In f (s_srcs s) /\ os_stat os f = Some T /\ s_mtime s < T) /\
  (changed = true ->
   exists pre f post T,
     s_srcs s = pre ++ f :: post /\
     (forall g t, In g pre -> os_stat os g = Some t -> t <= s_mtime s) /\
     os_stat os f = Some T /\ s_mtime s < T /\
     s' = {| s_srcs := s_srcs s; s_dirs := s_dirs s; s_mtime := T |} /\
     out = [Printf "Changed: %s\n" [AStr f]]) /\
  (changed = false -> s' = s /\ out = []) /\
  (fst (fst (Golr.detect os s')) = false <->
   forall g t, In g (s_srcs s) -> os_stat os g = Some t -> t <= s_mtime s').
Proof.
  cbv zeta. repeat split.
  - intros Hc.
    destruct (detect_result_of os s) as [Hall | pre f post T Hfs Hpre Hf Hlt];
      [discriminate|].
    exists f, T. rewrite Hfs. auto using in_elt.
  - intros (f & T & Hin & Hf & Hlt).
    destruct (fst (fst (Golr.detect os s))) eqn:Hd; [reflexivity|].
    pose proof (proj1 (detect_false_iff os s) Hd f T Hin Hf). lia.
  - intros Hc.
    destruct (detect_result_of os s) as [Hall | pre f post T Hfs Hpre Hf Hlt];
      [discriminate|].
    exists pre, f, post, T. simpl. auto 10.
  - destruct (detect_result_of os s); [reflexivity | discriminate].
  - destruct (detect_result_of os s); [reflexivity | discriminate].
  - intros Hd. pose proof (proj1 (detect_false_iff os _) Hd) as Hall.
    rewrite detect_srcs in Hall. exact Hall.
  - intros Hall. apply detect_false_iff. rewrite detect_srcs. exact Hall.
Qed.

(** C3 as stated fails: with [a.go] written at time 5 and [b.go] at time
    7, both after the baseline 0, the first call stops at [a.go] and sets
    the baseline to 5; the second call, with nothing changed in between,
    finds [b.go] newer than 5 and returns true again. *)
Lemma detect_twice_both_true :
  Golr.detect os_changed scanner0 =
    (true, {| s_srcs := sources; s_dirs := []; s_mtime := 5 |},
     [Printf "Changed: %s\n" [AStr "a.go"]]) /\
  Golr.detect os_changed (snd (fst (Golr.detect os_changed scanner0))) =
    (true, {| s_srcs := sources; s_dirs := []; s_mtime := 7 |},
     [Printf "Changed: %s\n" [AStr "b.go"]]).
Proof. split; reflexivity. Qed.

(** A sample of the statement above: [a.go] is found first, and the second
    call is not quiet because [b.go] is newer than 5. *)
Lemma detect_first_qualifying_file_wins_sample :
  (fst (fst (Golr.detect os_changed scanner0)) = true <->
   exists f T, In f sources /\ os_stat os_changed f = Some T /\ 0 < T) /\
  (fst (fst (Golr.detect os_changed
                         (snd (fst (Golr.detect os_changed scanner0))))) = false <->
   forall g t, In g sources -> os_stat os_changed g = Some t -> t <= 5).
Proof.
  pose proof (detect_first_qualifying_file_wins os_changed scanner0) as H.
  cbv zeta in H. destruct H as (H1 & _ & _ & H4).
  split; [exact H1 | exact H4].
Defined.

(** C4.  The baseline is set to the current time when the scanner is
    made; one call of [detect] either returns false and leaves the scanner
    as it was, or returns true and moves the baseline to a strictly later
    time; so along any sequence of calls, whatever the file system does
    between them, the baseline never goes back. *)
Theorem baseline_never_decreases :
  (forall os srcs dirs, s_mtime (Golr.NewScanner os srcs dirs) = os_now os) /\
  (forall os s,
     (fst (fst (Golr.detect os s)) = false /\
      snd (fst (Golr.detect os s)) = s) \/
     (fst (fst (Golr.detect os s)) = true /\
      s_mtime s < s_mtime (snd (fst (Golr.detect os s))))) /\
  (forall oss s, s_mtime s <= s_mtime (detect_seq oss s)) /\
  (forall oss1 oss2 s,
     s_mtime (detect_seq oss1 s) <= s_mtime (detect_seq (oss1 ++ oss2) s)).
Proof.
  assert (Hseq : forall oss s, s_mtime s <= s_mtime (detect_seq oss s)).
  { induction oss as [|os oss IH]; intros s; [simpl; lia|].
    change (s_mtime s <= s_mtime (detect_seq oss (snd (fst (Golr.detect os s))))).
    pose proof (IH (snd (fst (Golr.detect os s)))) as Hrest.
    destruct (detect_mtime_step os s) as [[_ Heq] | [_ Hlt]].
    - rewrite Heq in *. exact Hrest.
    - lia. }
  repeat split.
  - apply detect_mtime_step.
  - exact Hseq.
  - intros oss1 oss2 s. unfold detect_seq at 2. rewrite fold_left_app.
    apply Hseq.
Qed.

(** ** The builder *)

(** C8 as stated fails: when the [go] executable cannot be started,
    [build] reports failure although no compiler has run, let alone exited
    with a non-zero status; the output it prints is empty. *)
Lemma build_fails_when_go_is_missing :
  os_run os_go_missing "go" ["build"; "-o"; "/tmp/lr-bin"; "a.go"; "b.go"] =
    NotStarted "exec: go: executable file not found in $PATH" /\
  Golr.build os_go_missing builder0 =
    (Some "exec: go: executable file not found in $PATH",
     [Printf "Building: %s\n" [AStrs sources];
      Exec "go" ["build"; "-o"; "/tmp/lr-bin"; "a.go"; "b.go"];
      Printf "Build failed:\n%s\n" [ABytes []]]) /\
  ran os_go_missing (snd (Golr.build os_go_missing builder0)) = [].
Proof. split; [|split]; reflexivity. Qed.

(** C8, as the code has it.  One call of [build] asks exactly once for
    one command, [go build -o] followed by the output path and all the
    sources in order; the compiler runs once, or not at all when it cannot
    be started.  [build] reports failure exactly when the compiler exits
    with a non-zero status or cannot be started; it then returns the error
    of the command and prints the captured output, which is empty when the
    compiler never ran.  When the compiler exits with status 0 it returns
    nil and prints the elapsed time. *)
Theorem build_runs_compiler_once (os : OS) (b : Builder) :
  let args := "build" :: "-o" :: b_outfile b :: b_srcs b in
  filter is_exec (snd (Golr.build os b)) = [Exec "go" args] /\
  List.length (ran os (snd (Golr.build os b))) =
    match os_run os "go" args with
    | Exited _ _ => 1%nat
    | NotStarted _ => 0%nat
    end /\
  (fst (Golr.build os b) <> None <->
   (exists status out, os_run os "go" args = Exited status out /\ status <> 0) \/
   (exists e, os_run os "go" args = NotStarted e)) /\
  (forall status out,
     os_run os "go" args = Exited status out -> status <> 0 ->
     Golr.build os b =
       (Some (ExitError status),
        [Printf "Building: %s\n" [AStrs (b_srcs b)]; Exec "go" args;
         Printf "Build failed:\n%s\n" [ABytes out]])) /\
  (forall e,
     os_run os "go" args = NotStarted e ->
     Golr.build os b =
       (Some e,
        [Printf "Building: %s\n" [AStrs (b_srcs b)]; Exec "go" args;
         Printf "Build failed:\n%s\n" [ABytes []]])) /\
  (forall out,
     os_run os "go" args = Exited 0 out ->
     Golr.build os b =
       (None,
        [Printf "Building: %s\n" [AStrs (b_srcs b)]; Exec "go" args;
         Printf "Build done: %s\n" [ADuration (os_since os (os_now os))]])).
Proof.
  cbv zeta. unfold Golr.build, os_combined_output, ran.
  destruct (os_run os "go" _) as [status out|e] eqn:Hrun.
  - destruct (Z.eqb_spec status 0) as [->|Hne]; cbn [fst snd filter is_exec app];
      rewrite Hrun; cbn [List.length].
    + split; [reflexivity|]. split; [reflexivity|]. split; [|split; [|split]].
      * split; [intros H; now elim H|].
        intros [(st & o & [= <- <-] & Hst) | (e & He)];
          [now elim Hst | discriminate].
      * intros st o [= <- <-] Hst. now elim Hst.
      * intros e He. discriminate.
      * intros o [= <-]. reflexivity.
    + split; [reflexivity|]. split; [reflexivity|]. split; [|split; [|split]].
      * split; [intros _; left; eauto | discriminate].
      * intros st o [= <- <-] _. reflexivity.
      * intros e He. discriminate.
      * intros o [= Hst _]. congruence.
  - cbn [fst snd filter is_exec app]. rewrite Hrun. cbn [List.length].
    split; [reflexivity|]. split; [reflexivity|]. split; [|split; [|split]].
    + split; [intros _; right; eauto | discriminate].
    + intros st o He. discriminate.
    + intros e' [= <-]. reflexivity.
    + intros o He. discriminate.
Qed.

(** A build that fails with status 1, one that cannot start the compiler
    and one that succeeds, for [a.go] and [b.go]. *)
Lemma build_runs_compiler_once_sample :
  Golr.build os_build_fails builder0 =
    (Some "exit status 1",
     [Printf "Building: %s\n" [AStrs sources];
      Exec "go" ["build"; "-o"; "/tmp/lr-bin"; "a.go"; "b.go"];
      Printf "Build failed:\n%s\n"
        [ABytes (String.list_byte_of_string "a.go:1: syntax error")]]) /\
  fst (Golr.build os_go_missing builder0) <> None /\
  snd (Golr.build os_build_ok builder0) =
    [Printf "Building: %s\n" [AStrs sources];
     Exec "go" ["build"; "-o"; "/tmp/lr-bin"; "a.go"; "b.go"];
     Printf "Build done: %s\n" [ADuration (1500 * Millisecond)]].
Proof.
  pose proof (build_runs_compiler_once os_build_fails builder0) as Hf.
  pose proof (build_runs_compiler_once os_go_missing builder0) as Hm.
  pose proof (build_runs_compiler_once os_build_ok builder0) as Hs.
  cbv zeta in Hf, Hm, Hs.
  destruct Hf as (_ & _ & _ & Hfail & _).
  destruct Hm as (_ & _ & Hiff & _).
  destruct Hs as (_ & _ & _ & _ & _ & Hok).
  split; [|split].
  - apply (Hfail 1 (String.list_byte_of_string "a.go:1: syntax error"));
      [reflexivity | discriminate].
  - apply Hiff. right. eexists. reflexivity.
  - rewrite (Hok []); reflexivity.
Defined.

(** ** The runner *)

(** C5.  Without a tracked child [kill] returns false, leaves the runner
    as it is and asks nothing of the operating system.  With a tracked
    child [p] it returns true, the handle is nil afterwards, the other
    fields are untouched, and its one effect is the kill request for
    [p]. *)
Theorem kill_clears_handle (os : OS) (r : Golr.Runner) :
  (Golr.r_proc r = None -> Golr.kill os r = (false, r, [])) /\
  (forall p, Golr.r_proc r = Some p ->
     Golr.kill os r =
       (true,
        {| Golr.r_outfile := Golr.r_outfile r; Golr.r_pchan := Golr.r_pchan r;
           Golr.r_proc := None |},
        [ProcKill p])).
Proof.
  unfold Golr.kill. split.
  - intros ->. reflexivity.
  - intros p ->. reflexivity.
Qed.

Lemma kill_clears_handle_sample :
  Golr.kill os_changed runner_idle = (false, runner_idle, []) /\
  Golr.kill os_changed runner_live = (true, runner_idle, [ProcKill child1]).
Proof.
  split.
  - apply (proj1 (kill_clears_handle os_changed runner_idle)). reflexivity.
  - apply (proj2 (kill_clears_handle os_changed runner_live) child1). reflexivity.
Defined.

(** C9.  The error that [Process.Kill] returns is dropped: when the
    request fails, [kill] still returns true with the handle cleared, and
    its result is the same as under any other answer of the operating
    system. *)
Theorem kill_ignores_kill_error (os : OS) (r : Golr.Runner) (p : Process)
  (e : error) :
  Golr.r_proc r = Some p ->
  os_kill os p = Some e ->
  fst (fst (Golr.kill os r)) = true /\
  Golr.r_proc (snd (fst (Golr.kill os r))) = None /\
  forall os', Golr.kill os' r = Golr.kill os r.
Proof.
  intros Hp _. unfold Golr.kill. rewrite Hp. simpl. auto.
Qed.

Lemma kill_ignores_kill_error_sample :
  os_kill os_changed_kill_fails child1 = Some "os: process already finished" /\
  fst (fst (Golr.kill os_changed_kill_fails runner_live)) = true /\
  Golr.r_proc (snd (fst (Golr.kill os_changed_kill_fails runner_live))) = None.
Proof.
  split; [reflexivity|].
  destruct (kill_ignores_kill_error os_changed_kill_fails runner_live child1
              "os: process already finished" eq_refl eq_refl) as (H1 & H2 & _).
  split; assumption.
Defined.

(** ** The coordinator loop *)

Lemma spawn_no_exec (os : OS) (r : Golr.Runner) :
  filter is_exec (snd (Golr.spawn os r)) = [].
Proof.
  unfold Golr.spawn.
  destruct (os_start_process os _ _ _); reflexivity.
Qed.

Lemma build_one_exec (os : OS) (b : Builder) :
  List.length (filter is_exec (snd (Golr.build os b))) = 1%nat.
Proof.
  unfold Golr.build.
  destruct (os_combined_output os "go" _) as [out [e|]]; reflexivity.
Qed.

(** The transitions out of [building], [running] and [killing], read off
    the loop body. *)
Lemma iteration_building (os : OS) (m : Golr.Main) :
  Golr.state m = building ->
  Golr.state (fst (Golr.iteration os m)) = running /\
  Golr.scanner (fst (Golr.iteration os m)) = Golr.scanner m /\
  Golr.builder (fst (Golr.iteration os m)) = Golr.builder m.
Proof.
  intros Hst. unfold Golr.iteration. rewrite Hst.
  destruct (Golr.build os (Golr.builder m)) as [[e|] t1].
  - simpl. auto.
  - destruct (Golr.spawn os (Golr.runner m)) as [[o r'] t2]. simpl. auto.
Qed.

Lemma iteration_select (os : OS) (m : Golr.Main) :
  Golr.state m = running \/ Golr.state m = killing ->
  Golr.iteration os m =
    (fst (Golr.select os m), snd (Golr.select os m) ++ [Sleep (250 * Millisecond)]).
Proof.
  intros [Hst|Hst]; unfold Golr.iteration; rewrite Hst;
    destruct (Golr.select os m); reflexivity.
Qed.

Lemma select_default (os : OS) (m : Golr.Main) :
  os_select os = NoComm ->
  fst (Golr.select os m) =
    if fst (fst (Golr.detect os (Golr.scanner m)))
    then {| Golr.scanner := snd (fst (Golr.detect os (Golr.scanner m)));
            Golr.builder := Golr.builder m;
            Golr.runner := snd (fst (Golr.kill os (Golr.runner m)));
            Golr.state := if fst (fst (Golr.kill os (Golr.runner m)))
                          then killing else building |}
    else {| Golr.scanner := snd (fst (Golr.detect os (Golr.scanner m)));
            Golr.builder := Golr.builder m;
            Golr.runner := Golr.runner m;
            Golr.state := Golr.state m |}.
Proof.
  intros Hsel. unfold Golr.select. rewrite Hsel.
  destruct (Golr.detect os (Golr.scanner m)) as [[[|] s'] t1]; simpl.
  - destruct (Golr.kill os (Golr.runner m)) as [[k r'] t2]. reflexivity.
  - reflexivity.
Qed.

Lemma select_comm (os : OS) (m : Golr.Main) :
  os_select os <> NoComm ->
  fst (Golr.select os m) =
    {| Golr.scanner := Golr.scanner m; Golr.builder := Golr.builder m;
       Golr.runner := Golr.runner m;
       Golr.state :=
         match os_select os with
         | ProcComm _ =>
             if State_eqb (Golr.state m) killing then building else exiting
         | _ => exiting
         end |}.
Proof.
  intros Hsel. unfold Golr.select.
  destruct (os_select os); [congruence | reflexivity | reflexivity].
Qed.

(** Whenever the coordinator is about to build, or is waiting for a killed
    child, the runner tracks no process. *)
Lemma no_handle_when_building_or_killing (m : Golr.Main) :
  reachable m ->
  Golr.state m = building \/ Golr.state m = killing ->
  Golr.r_proc (Golr.runner m) = None.
Proof.
  induction 1 as [os srcs outfile pchan | os m Hreach IH Hne].
  - reflexivity.
  - destruct (Golr.state m) eqn:Hst.
    + destruct (iteration_building os m Hst) as (Hrun & _).
      rewrite Hrun. intros [?|?]; discriminate.
    + rewrite iteration_select by auto. cbn [fst].
      destruct (os_select os) eqn:Hsel.
      * rewrite select_default by assumption.
        destruct (fst (fst (Golr.detect os (Golr.scanner m)))).
        -- cbn [Golr.state Golr.runner]. intros _.
           unfold Golr.kill. destruct (Golr.r_proc (Golr.runner m)) eqn:Hp;
             simpl; [reflexivity | assumption].
        -- cbn [Golr.state]. rewrite Hst. intros [?|?]; discriminate.
      * rewrite select_comm by congruence. rewrite Hsel, Hst. simpl.
        intros [?|?]; discriminate.
      * rewrite select_comm by congruence. rewrite Hsel. simpl.
        intros [?|?]; discriminate.
    + specialize (IH (or_intror eq_refl)).
      rewrite iteration_select by auto. cbn [fst].
      destruct (os_select os) eqn:Hsel.
      * rewrite select_default by assumption.
        destruct (fst (fst (Golr.detect os (Golr.scanner m)))).
        -- cbn [Golr.state Golr.runner]. intros _.
           unfold Golr.kill. rewrite IH. simpl. assumption.
        -- cbn [Golr.runner]. intros _. assumption.
      * rewrite select_comm by congruence. cbn [Golr.runner]. intros _.
        assumption.
      * rewrite select_comm by congruence. rewrite Hsel. simpl.
        intros [?|?]; discriminate.
    + congruence.
Qed.

(** X13.  What one iteration entered in [killing] does to the state, on
    the runs that can happen: a signal ends the loop, a message on the
    completion channel starts the next build, and so does a detected
    change, because [kill] finds no handle and returns false. *)
Lemma killing_transitions (os : OS) (m : Golr.Main) :
  reachable m ->
  Golr.state m = killing ->
  Golr.state (fst (Golr.iteration os m)) =
    match os_select os with
    | NoComm =>
        if fst (fst (Golr.detect os (Golr.scanner m)))
        then building else killing
    | ProcComm _ => building
    | SigComm _ => exiting
    end.
Proof.
  intros Hreach Hst.
  pose proof (no_handle_when_building_or_killing m Hreach (or_intror Hst)) as Hp.
  rewrite iteration_select by auto. cbn [fst].
  destruct (os_select os) eqn:Hsel.
  - rewrite select_default by assumption.
    destruct (fst (fst (Golr.detect os (Golr.scanner m)))).
    + cbn [Golr.state]. unfold Golr.kill. rewrite Hp. reflexivity.
    + cbn [Golr.state]. assumption.
  - rewrite select_comm by congruence. rewrite Hsel, Hst. reflexivity.
  - rewrite select_comm by congruence. rewrite Hsel. reflexivity.
Qed.

Lemma reachable_loop (oss : list OS) (m : Golr.Main) :
  reachable m -> reachable (fst (Golr.loop oss m)).
Proof.
  revert m. induction oss as [|os oss IH]; intros m Hm; simpl; [assumption|].
  assert (Hstep : Golr.state m <> exiting ->
                  reachable (fst (let '(m1, t1) := Golr.iteration os m in
                                  let '(m2, t2) := Golr.loop oss m1 in
                                  (m2, t1 ++ t2)))).
  { intros Hne. pose proof (reach_iteration os m Hm Hne) as H1.
    apply IH in H1.
    destruct (Golr.iteration os m) as [m1 t1]. cbn [fst] in H1.
    destruct (Golr.loop oss m1) as [m2 t2]. exact H1. }
  destruct (Golr.state m) eqn:Hst; try (apply Hstep; discriminate).
  exact Hm.
Qed.

(** C2.  An iteration entered in [building] always ends in [running],
    whatever the compiler and the process start answer, and it has run the
    compiler exactly once. *)
Theorem building_always_goes_running (os : OS) (m : Golr.Main) :
  Golr.state m = building ->
  Golr.state (fst (Golr.iteration os m)) = running /\
  List.length (filter is_exec (snd (Golr.iteration os m))) = 1%nat.
Proof.
  intros Hst. split; [apply (iteration_building os m Hst)|].
  pose proof (build_one_exec os (Golr.builder m)) as Hone.
  pose proof (spawn_no_exec os (Golr.runner m)) as Hnone.
  unfold Golr.iteration. rewrite Hst.
  destruct (Golr.build os (Golr.builder m)) as [[e|] t1].
  - cbn [snd] in *. rewrite !filter_app, !length_app. simpl. lia.
  - destruct (Golr.spawn os (Golr.runner m)) as [[o r'] t2].
    cbn [snd] in *. rewrite !filter_app, !length_app, Hnone. simpl. lia.
Qed.

(** The first iteration, once with a failing compiler, once with a failing
    process start, once with both working. *)
Lemma building_always_goes_running_sample :
  Golr.state (fst (Golr.iteration os_build_fails main0)) = running /\
  Golr.state (fst (Golr.iteration os_start_fails main0)) = running /\
  Golr.state (fst (Golr.iteration os_build_ok main0)) = running.
Proof.
  split; [|split].
  - apply (building_always_goes_running os_build_fails main0). reflexivity.
  - apply (building_always_goes_running os_start_fails main0). reflexivity.
  - apply (building_always_goes_running os_build_ok main0). reflexivity.
Defined.

(** C1 at a run of the program.  The first iteration builds and starts
    child 41.  In the second, [a.go] (time 5) is found changed and the
    child is killed: the state is [killing] and the handle is nil.  In the
    third, no channel is ready and [b.go] (time 7) is found changed:
    [kill] returns false, and the state becomes [building] although the
    killed child has not reported.  (From the same state the message of
    the killed child also leads to [building], and a signal to
    [exiting].)  The fourth iteration starts child 42, and when the
    message of child 41 arrives in the fifth, the state is [running], so
    the loop ends with child 42 still tracked. *)
Theorem change_while_killing_starts_build :
  let m2 := fst (Golr.loop [os_build_ok; os_changed] main0) in
  Golr.state m2 = killing /\
  os_select os_changed = NoComm /\
  Golr.state (fst (Golr.iteration os_changed m2)) = building /\
  snd (Golr.iteration os_changed m2) =
    [Printf "Changed: %s\n" [AStr "b.go"]; Sleep (250 * Millisecond)] /\
  Golr.state (fst (Golr.iteration os_child_exit m2)) = building /\
  Golr.state (fst (Golr.iteration os_signal m2)) = exiting /\
  Golr.state
    (fst (Golr.loop [os_build_ok; os_changed; os_changed; os_build_ok2] main0))
  = running /\
  fst (Golr.loop [os_build_ok; os_changed; os_changed; os_build_ok2;
                  os_child_exit] main0) =
    {| Golr.scanner := {| s_srcs := sources; s_dirs := []; s_mtime := 7 |};
       Golr.builder := builder0;
       Golr.runner := {| Golr.r_outfile := "/tmp/lr-bin"; Golr.r_pchan := 0%nat;
                         Golr.r_proc := Some child2 |};
       Golr.state := exiting |}.
Proof. cbv zeta. repeat split. Qed.







(** C7 at an input: the compiler succeeds and the start of the output
    file is refused.  [spawn] returns the error and [main] drops it: the
    iteration prints the build lines and the "Starting" line and nothing
    that carries an error, whereas the iteration of a failed build does
    print its error.  The rest is as C7 says: the state is [running], no
    handle is tracked, and the loop variables are those after a failed
    build. *)
Theorem spawn_error_not_printed :
  fst (fst (Golr.spawn os_start_fails (Golr.runner main0))) =
    Some "fork/exec /tmp/lr-bin: permission denied" /\
  prints (snd (Golr.iteration os_start_fails main0)) =
    [Printf "Building...\n" [];
     Printf "Building: %s\n" [AStrs sources];
     Printf "Build done: %s\n" [ADuration (1500 * Millisecond)];
     Printf "Starting %s\n" [AStr "/tmp/lr-bin"]] /\
  existsb logs_error (snd (Golr.iteration os_start_fails main0)) = false /\
  existsb logs_error (snd (Golr.iteration os_build_fails main0)) = true /\
  Golr.state (fst (Golr.iteration os_start_fails main0)) = running /\
  Golr.r_proc (Golr.runner (fst (Golr.iteration os_start_fails main0))) = None /\
  fst (Golr.iteration os_start_fails main0) =
    fst (Golr.iteration os_build_fails main0).
Proof. repeat split. Qed.

(** The same for every run.  In [building], when the compiler succeeds
    and the process start fails, the error is returned by [spawn] and
    dropped by [main]: the iteration prints the build lines and the
    "Starting" line and no error.  The loop variables afterwards are those
    after a failed build: state [running], no handle, scanner and builder
    untouched.  From there a detected change leads to [building] and a
    signal to [exiting]. *)
Theorem spawn_error_is_dropped (os : OS) (m : Golr.Main) (out : bytes)
  (e : error) :
  reachable m ->
  Golr.state m = building ->
  os_combined_output os "go"
    ("build" :: "-o" :: b_outfile (Golr.builder m) :: b_srcs (Golr.builder m))
    = (out, None) ->
  os_start_process os (Golr.r_outfile (Golr.runner m))
    [Golr.r_outfile (Golr.runner m)] [Stdin; Stdout; Stderr] = inr e ->
  let m' := fst (Golr.iteration os m) in
  fst (fst (Golr.spawn os (Golr.runner m))) = Some e /\
  m' = {| Golr.scanner := Golr.scanner m; Golr.builder := Golr.builder m;
          Golr.runner := Golr.runner m; Golr.state := running |} /\
  Golr.r_proc (Golr.runner m') = None /\
  snd (Golr.iteration os m) =
    [Printf "Building...\n" [];
     Printf "Building: %s\n" [AStrs (b_srcs (Golr.builder m))];
     Exec "go" ("build" :: "-o" :: b_outfile (Golr.builder m)
                  :: b_srcs (Golr.builder m));
     Printf "Build done: %s\n" [ADuration (os_since os (os_now os))];
     Printf "Starting %s\n" [AStr (Golr.r_outfile (Golr.runner m))];
     StartProcess (Golr.r_outfile (Golr.runner m))
       [Golr.r_outfile (Golr.runner m)] [Stdin; Stdout; Stderr]] /\
  existsb logs_error (snd (Golr.iteration os m)) = false /\
  (forall os2, fst (Golr.build os2 (Golr.builder m)) <> None ->
     fst (Golr.iteration os2 m) = m') /\
  (forall os3, os_select os3 = NoComm ->
     fst (fst (Golr.detect os3 (Golr.scanner m'))) = true ->
     Golr.state (fst (Golr.iteration os3 m')) = building) /\
  (forall os3 sig, os_select os3 = SigComm sig ->
     Golr.state (fst (Golr.iteration os3 m')) = exiting).
Proof.
  intros Hreach Hst Hgo Hstart.
  pose proof (no_handle_when_building_or_killing m Hreach (or_introl Hst)) as Hp.
  assert (Hit : Golr.iteration os m =
    ({| Golr.scanner := Golr.scanner m; Golr.builder := Golr.builder m;
        Golr.runner := Golr.runner m; Golr.state := running |},
     [Printf "Building...\n" [];
      Printf "Building: %s\n" [AStrs (b_srcs (Golr.builder m))];
      Exec "go" ("build" :: "-o" :: b_outfile (Golr.builder m)
                   :: b_srcs (Golr.builder m));
      Printf "Build done: %s\n" [ADuration (os_since os (os_now os))];
      Printf "Starting %s\n" [AStr (Golr.r_outfile (Golr.runner m))];
      StartProcess (Golr.r_outfile (Golr.runner m))
        [Golr.r_outfile (Golr.runner m)] [Stdin; Stdout; Stderr]])).
  { unfold Golr.iteration, Golr.build, Golr.spawn.
    rewrite Hst, Hgo, Hstart. reflexivity. }
  cbv zeta. rewrite Hit. cbn [fst snd].
  split; [unfold Golr.spawn; rewrite Hstart; reflexivity|].
  split; [reflexivity|].
  split; [exact Hp|].
  split; [reflexivity|].
  split; [reflexivity|].
  split; [|split].
  - intros os2 Hfail. unfold Golr.iteration. rewrite Hst.
    destruct (Golr.build os2 (Golr.builder m)) as [[e2|] t1];
      [reflexivity | now elim Hfail].
  - intros os3 Hsel Hchg.
    rewrite iteration_select by (left; reflexivity). cbn [fst].
    rewrite select_default by assumption. rewrite Hchg.
    cbn [Golr.state Golr.runner]. unfold Golr.kill. rewrite Hp. reflexivity.
  - intros os3 sig Hsel.
    rewrite iteration_select by (left; reflexivity). cbn [fst].
    rewrite select_comm by congruence. rewrite Hsel. reflexivity.
Qed.

Lemma spawn_error_is_dropped_sample :
  fst (Golr.iteration os_start_fails main0) =
    fst (Golr.iteration os_build_fails main0) /\
  Golr.r_proc (Golr.runner (fst (Golr.iteration os_start_fails main0))) = None /\
  Golr.state (fst (Golr.iteration os_changed
                     (fst (Golr.iteration os_start_fails main0)))) = building.
Proof.
  destruct (spawn_error_is_dropped os_start_fails main0 []
              "fork/exec /tmp/lr-bin: permission denied"
              (reach_init os_build_ok sources "/tmp/lr-bin" 0%nat)
              eq_refl eq_refl eq_refl)
    as (_ & _ & Hnil & _ & _ & Hsame & Hchg & _).
  split; [|split].
  - symmetry. apply Hsame. discriminate.
  - exact Hnil.
  - apply Hchg; reflexivity.
Defined.

(** ** The two files *)

Lemma args_detect_range_eq (os : OS) (s : Scanner) (fs : list string) :
  GolrArgs.detect_range os fs s = Golr.detect_range os fs s.
Proof.
  induction fs as [|f fs IH]; simpl; [reflexivity|].
  rewrite IH. reflexivity.
Qed.

Lemma args_detect_eq (os : OS) (s : Scanner) :
  GolrArgs.detect os s = Golr.detect os s.
Proof. apply args_detect_range_eq. Qed.






Lemma split_args_marker (this child : list string) :
  ~ In "--" this ->
  GolrArgs.split_args (this ++ "--" :: child) = (this, child).
Proof.
  induction this as [|a this IH]; intros Hnot; simpl; [reflexivity|].
  destruct (String.eqb_spec a "--") as [->|Hne].
  - elim Hnot. left. reflexivity.
  - rewrite IH; [reflexivity|]. intros Hin. apply Hnot. right. exact Hin.
Qed.

Lemma split_args_no_marker (this : list string) :
  ~ In "--" this -> GolrArgs.split_args this = (this, []).
Proof.
  induction this as [|a this IH]; intros Hnot; simpl; [reflexivity|].
  destruct (String.eqb_spec a "--") as [->|Hne].
  - elim Hnot. left. reflexivity.
  - rewrite IH; [reflexivity|]. intros Hin. apply Hnot. right. exact Hin.
Qed.

Lemma detect_no_requests (os : OS) (s : Scanner) :
  requests (snd (Golr.detect os s)) = [].
Proof. destruct (detect_result_of os s); reflexivity. Qed.

Lemma requests_app (a b : list Event) :
  requests (a ++ b) = requests a ++ requests b.
Proof. apply filter_app. Qed.

Lemma args_iteration_keeps (os : OS) (m : GolrArgs.Main) :
  GolrArgs.builder (fst (GolrArgs.iteration os m)) = GolrArgs.builder m /\
  GolrArgs.r_outfile (GolrArgs.runner (fst (GolrArgs.iteration os m))) =
    GolrArgs.r_outfile (GolrArgs.runner m) /\
  GolrArgs.r_args (GolrArgs.runner (fst (GolrArgs.iteration os m))) =
    GolrArgs.r_args (GolrArgs.runner m) /\
  GolrArgs.r_pchan (GolrArgs.runner (fst (GolrArgs.iteration os m))) =
    GolrArgs.r_pchan (GolrArgs.runner m).
Proof.
  unfold GolrArgs.iteration, GolrArgs.select, GolrArgs.build, GolrArgs.spawn,
    GolrArgs.kill.
  destruct (GolrArgs.state m).
  - destruct (os_combined_output os "go" _) as [out [e|]]; [cbn; auto|].
    destruct (os_start_process os _ _ _); cbn; auto.
  - destruct (os_select os); [|cbn; auto..].
    destruct (GolrArgs.detect os (GolrArgs.scanner m)) as [[[|] s'] t1];
      [|cbn; auto].
    destruct (GolrArgs.r_proc (GolrArgs.runner m)); cbn; auto.
  - destruct (os_select os); [|cbn; auto..].
    destruct (GolrArgs.detect os (GolrArgs.scanner m)) as [[[|] s'] t1];
      [|cbn; auto].
    destruct (GolrArgs.r_proc (GolrArgs.runner m)); cbn; auto.
  - cbn. auto.
Qed.









(** * Further properties of the code *)

(** ** The change scanner, continued *)

(** X1.  As long as no watched file that can be stat'ed is newer than the
    baseline, every call of [detect] returns false, prints nothing and
    leaves the scanner as it is, however many calls are made. *)
Theorem detect_quiet_forever (oss : list OS) (s : Scanner) :
  (forall os f t,
     In os oss -> In f (s_srcs s) -> os_stat os f = Some t -> t <= s_mtime s) ->
  detect_seq oss s = s /\
  forall os, In os oss -> Golr.detect os s = (false, s, []).
Proof.
  intros Hquiet.
  assert (Hone : forall os, In os oss -> Golr.detect os s = (false, s, [])).
  { intros os Hin.
    assert (Hf : fst (fst (Golr.detect os s)) = false).
    { apply detect_false_iff. intros f t. apply Hquiet. exact Hin. }
    destruct (detect_result_of os s); [reflexivity | discriminate]. }
  split; [|exact Hone].
  induction oss as [|os oss IH]; [reflexivity|].
  unfold detect_seq. cbn [fold_left].
  rewrite (Hone os (or_introl eq_refl)). cbn [fst snd].
  apply IH.
  - intros os' f t Hin. apply Hquiet. right. exact Hin.
  - intros os' Hin. apply Hone. right. exact Hin.
Qed.

Lemma detect_quiet_forever_sample :
  detect_seq [os_build_ok; os_child_exit; os_signal] scanner0 = scanner0.
Proof.
  apply (detect_quiet_forever [os_build_ok; os_child_exit; os_signal] scanner0).
  intros os f t [<-|[<-|[<-|[]]]] [<-|[<-|[]]]; cbn; intros [= <-]; cbn; lia.
Defined.

Lemma detect_range_dirs (os : OS) (s : Scanner) (d : list string)
  (fs : list string) :
  Golr.detect_range os fs
    {| s_srcs := s_srcs s; s_dirs := d; s_mtime := s_mtime s |} =
  (fst (fst (Golr.detect_range os fs s)),
   {| s_srcs := s_srcs s; s_dirs := d;
      s_mtime := s_mtime (snd (fst (Golr.detect_range os fs s))) |},
   snd (Golr.detect_range os fs s)).
Proof.
  induction fs as [|f fs IH]; cbn [Golr.detect_range]; [reflexivity|].
  cbn [s_mtime s_srcs s_dirs].
  destruct (os_stat os f) as [T|]; [|exact IH].
  destruct (After T (s_mtime s)); [reflexivity | exact IH].
Qed.

(** X2.  The watch directories take no part in change detection: with
    any other list of directories in the scanner, [detect] gives the same
    answer, the same new baseline and the same output, and it hands the
    directories and the sources back as it found them. *)
Theorem detect_ignores_dirs (os : OS) (s : Scanner) (d : list string) :
  Golr.detect os {| s_srcs := s_srcs s; s_dirs := d; s_mtime := s_mtime s |} =
    (fst (fst (Golr.detect os s)),
     {| s_srcs := s_srcs s; s_dirs := d;
        s_mtime := s_mtime (snd (fst (Golr.detect os s))) |},
     snd (Golr.detect os s)) /\
  s_dirs (snd (fst (Golr.detect os s))) = s_dirs s /\
  s_srcs (snd (fst (Golr.detect os s))) = s_srcs s.
Proof.
  split; [apply (detect_range_dirs os s d (s_srcs s))|].
  destruct (detect_result_of os s); auto.
Qed.

Lemma filter_shrinks {A : Type} (P Q : A -> bool) (x : A) (l : list A) :
  (forall a, Q a = true -> P a = true) ->
  In x l -> P x = true -> Q x = false ->
  (List.length (filter Q l) < List.length (filter P l))%nat.
Proof.
  intros Himp Hin HP HQ.
  assert (Hle : forall l', (List.length (filter Q l')
                            <= List.length (filter P l'))%nat).
  { induction l' as [|a l' IH]; simpl; [lia|].
    destruct (Q a) eqn:Hq.
    - rewrite (Himp a Hq). simpl. lia.
    - destruct (P a); simpl; lia. }
  induction l as [|a l IH]; [destruct Hin|].
  destruct Hin as [->|Hin]; simpl.
  - rewrite HP, HQ. simpl. specialize (Hle l). lia.
  - specialize (IH Hin). destruct (Q a) eqn:Hq.
    + rewrite (Himp a Hq). simpl. lia.
    + destruct (P a); simpl; lia.
Qed.

Lemma newer_nil_iff (os : OS) (s : Scanner) :
  newer os s = [] <-> fst (fst (Golr.detect os s)) = false.
Proof.
  rewrite detect_false_iff. unfold newer. split.
  - intros Hnil g t Hin Hg.
    destruct (Z_le_gt_dec t (s_mtime s)) as [Hle|Hgt]; [exact Hle|].
    assert (Hmem : In g (filter (fun f => match os_stat os f with
                                          | Some t => After t (s_mtime s)
                                          | None => false
                                          end) (s_srcs s))).
    { apply filter_In. split; [exact Hin|]. rewrite Hg.
      apply After_spec. lia. }
    rewrite Hnil in Hmem. destruct Hmem.
  - intros Hall.
    destruct (filter _ (s_srcs s)) as [|g rest] eqn:Hf; [reflexivity|].
    assert (Hmem : In g (g :: rest)) by (left; reflexivity).
    rewrite <- Hf in Hmem. apply filter_In in Hmem. destruct Hmem as [Hin Hg].
    destruct (os_stat os g) as [t|] eqn:Hst; [|discriminate].
    apply After_spec in Hg. specialize (Hall g t Hin Hst). lia.
Qed.

Lemma newer_decreases (os : OS) (s : Scanner) :
  fst (fst (Golr.detect os s)) = true ->
  (List.length (newer os (snd (fst (Golr.detect os s))))
   < List.length (newer os s))%nat.
Proof.
  intros Hd.
  destruct (detect_result_of os s) as [Hall | pre f post T Hfs Hpre Hf Hlt];
    [discriminate|].
  cbn [fst snd]. unfold newer. cbn [s_srcs s_mtime].
  apply (filter_shrinks _ _ f).
  - intros a. destruct (os_stat os a) as [t|]; [|discriminate].
    rewrite !After_spec. lia.
  - rewrite Hfs. apply in_elt.
  - rewrite Hf. apply After_spec. exact Hlt.
  - rewrite Hf. apply After_false. lia.
Qed.

Lemma detect_seq_cons (os : OS) (oss : list OS) (s : Scanner) :
  detect_seq (os :: oss) s = detect_seq oss (snd (fst (Golr.detect os s))).
Proof. reflexivity. Qed.

Lemma detect_repeat_settles (os : OS) (n : nat) :
  forall s, (List.length (newer os s) <= n)%nat ->
            newer os (detect_seq (repeat os n) s) = [].
Proof.
  induction n as [|n IH]; intros s Hle.
  - simpl. destruct (newer os s); [reflexivity | simpl in Hle; lia].
  - cbn [repeat]. rewrite detect_seq_cons. apply IH.
    destruct (fst (fst (Golr.detect os s))) eqn:Hd.
    + pose proof (newer_decreases os s Hd). lia.
    + destruct (detect_mtime_step os s) as [[_ Heq] | [Ht _]]; [|congruence].
      rewrite Heq. apply newer_nil_iff in Hd. rewrite Hd. simpl. lia.
Qed.

(** X3.  Against a file system that stays as it is, detection settles:
    after as many calls of [detect] as there are watched files (or more)
    the next call returns false.  One batch of writes therefore triggers at
    most one positive answer per watched file. *)
Theorem detect_settles (os : OS) (s : Scanner) (n : nat) :
  (List.length (s_srcs s) <= n)%nat ->
  fst (fst (Golr.detect os (detect_seq (repeat os n) s))) = false.
Proof.
  intros Hn. apply newer_nil_iff. apply detect_repeat_settles.
  unfold newer. pose proof (filter_length_le
    (fun f => match os_stat os f with
              | Some t => After t (s_mtime s)
              | None => false
              end) (s_srcs s)). lia.
Qed.

Lemma detect_settles_sample :
  fst (fst (Golr.detect os_changed
              (detect_seq [os_changed; os_changed] scanner0))) = false.
Proof. apply (detect_settles os_changed scanner0 2). simpl. lia. Defined.

(** ** The runner, continued *)

(** X4.  Starting a child on an idle runner and killing it brings the
    runner back to where it was: when the start succeeds with process [p],
    the following [kill] returns true, asks for the kill of exactly [p]
    and leaves the runner equal to the one before [spawn]. *)
Theorem spawn_then_kill_restores (os os' : OS) (r : Golr.Runner) (p : Process) :
  Golr.r_proc r = None ->
  os_start_process os (Golr.r_outfile r) [Golr.r_outfile r]
    [Stdin; Stdout; Stderr] = inl p ->
  Golr.r_proc (snd (fst (Golr.spawn os r))) = Some p /\
  Golr.kill os' (snd (fst (Golr.spawn os r))) = (true, r, [ProcKill p]).
Proof.
  intros Hidle Hstart. unfold Golr.spawn. rewrite Hstart. cbn [fst snd].
  split; [reflexivity|].
  unfold Golr.kill. cbn. destruct r as [o c pr]. cbn in Hidle. subst pr.
  reflexivity.
Qed.

Lemma spawn_then_kill_restores_sample :
  Golr.kill os_changed (snd (fst (Golr.spawn os_build_ok runner_idle))) =
    (true, runner_idle, [ProcKill child1]).
Proof.
  apply (spawn_then_kill_restores os_build_ok os_changed runner_idle child1);
    reflexivity.
Defined.

(** X5.  A second [kill] right after a [kill] does nothing: it returns
    false, asks nothing of the operating system and leaves the runner as
    the first one left it, whether or not the first one found a child. *)
Theorem kill_twice_is_kill_once (os os' : OS) (r : Golr.Runner) :
  Golr.kill os' (snd (fst (Golr.kill os r))) =
    (false, snd (fst (Golr.kill os r)), []).
Proof.
  unfold Golr.kill at 2 3.
  destruct (Golr.r_proc r) eqn:Hp; cbn [fst snd].
  - reflexivity.
  - unfold Golr.kill. rewrite Hp. reflexivity.
Qed.

(** ** Command line *)

Lemma Set_all_from (values : list string) :
  forall (s : Golr.strslice) (t : list Event),
    fold_left (fun acc v => (snd (fst (Golr.Set_ (fst acc) v)),
                             snd acc ++ snd (Golr.Set_ (fst acc) v)))
              values (s, t) =
    (s ++ values, t ++ map (fun v => Printf "%s\n" [AStr v]) values).
Proof.
  induction values as [|v values IH]; intros s t; cbn [fold_left map].
  - rewrite !app_nil_r. reflexivity.
  - rewrite IH. cbn [Golr.Set_ fst snd]. rewrite <- !app_assoc. reflexivity.
Qed.

(** X6.  The [-d] flag accumulates: after [Set] has been called for the
    values [v1 ... vn], the slice is the old one followed by [v1 ... vn]
    in that order, each value has been echoed on a line of its own, and no
    call has returned an error. *)
Theorem Set_appends_in_order (s : Golr.strslice) (values : list string) :
  Set_all s values =
    (s ++ values, map (fun v => Printf "%s\n" [AStr v]) values) /\
  forall s' v, fst (fst (Golr.Set_ s' v)) = None.
Proof.
  split; [|reflexivity].
  unfold Set_all. rewrite Set_all_from. reflexivity.
Qed.

Lemma split_args_this_clean (args : list string) :
  ~ In "--" (fst (GolrArgs.split_args args)).
Proof.
  induction args as [|a args IH]; simpl; [tauto|].
  destruct (String.eqb_spec a "--") as [->|Hne]; [simpl; tauto|].
  destruct (GolrArgs.split_args args) as [this child]. simpl in *.
  intros [Heq|Hin]; [congruence | tauto].
Qed.

Lemma split_args_rebuild (args : list string) :
  In "--" args ->
  args = fst (GolrArgs.split_args args) ++ "--" :: snd (GolrArgs.split_args args).
Proof.
  induction args as [|a args IH]; simpl; [tauto|].
  destruct (String.eqb_spec a "--") as [->|Hne]; [reflexivity|].
  intros [Heq|Hin]; [congruence|].
  specialize (IH Hin).
  destruct (GolrArgs.split_args args) as [this child]. simpl in *.
  congruence.
Qed.

(** X7.  [split_args] cuts the command line at its first "--" and loses
    nothing.  The part kept for the tool never contains "--".  When the
    command line contains "--", it is the tool's part, then "--", then
    the child's part (which may contain further "--").  When it does not,
    the tool keeps everything and the child gets no arguments. *)
Theorem split_args_partition (args : list string) :
  ~ In "--" (fst (GolrArgs.split_args args)) /\
  (In "--" args ->
   args = fst (GolrArgs.split_args args) ++
          "--" :: snd (GolrArgs.split_args args)) /\
  (~ In "--" args -> GolrArgs.split_args args = (args, [])).
Proof.
  split; [apply split_args_this_clean|].
  split; [apply split_args_rebuild | apply split_args_no_marker].
Qed.

Lemma split_args_partition_sample :
  ["a.go"; "--"; "-v"; "--"; "x"] =
    fst (GolrArgs.split_args ["a.go"; "--"; "-v"; "--"; "x"]) ++
    "--" :: snd (GolrArgs.split_args ["a.go"; "--"; "-v"; "--"; "x"]) /\
  snd (GolrArgs.split_args ["a.go"; "--"; "-v"; "--"; "x"]) = ["-v"; "--"; "x"].
Proof.
  split; [|reflexivity].
  apply (proj1 (proj2 (split_args_partition ["a.go"; "--"; "-v"; "--"; "x"]))).
  simpl. auto.
Defined.

(** ** The coordinator loop, continued *)

Lemma loop_exiting (oss : list OS) (m : Golr.Main) :
  Golr.state m = exiting -> Golr.loop oss m = (m, []).
Proof. intros Hst. destruct oss; simpl; [|rewrite Hst]; reflexivity. Qed.

Lemma loop_cons (os : OS) (oss : list OS) (m : Golr.Main) :
  Golr.state m <> exiting ->
  Golr.loop (os :: oss) m =
    (fst (Golr.loop oss (fst (Golr.iteration os m))),
     snd (Golr.iteration os m) ++ snd (Golr.loop oss (fst (Golr.iteration os m)))).
Proof.
  intros Hne. cbn [Golr.loop].
  destruct (Golr.iteration os m) as [m1 t1]. cbn [fst snd].
  destruct (Golr.loop oss m1) as [m2 t2]. cbn [fst snd].
  destruct (Golr.state m); try reflexivity. congruence.
Qed.

(** Running the loop over two batches of iterations is running it
    over the first and continuing from where that ended, the effects being
    those of the first run followed by those of the second; and once the
    state is [exiting] no further iteration does anything. *)
Theorem loop_app (oss1 oss2 : list OS) (m : Golr.Main) :
  Golr.loop (oss1 ++ oss2) m =
    (fst (Golr.loop oss2 (fst (Golr.loop oss1 m))),
     snd (Golr.loop oss1 m) ++ snd (Golr.loop oss2 (fst (Golr.loop oss1 m)))) /\
  (Golr.state (fst (Golr.loop oss1 m)) = exiting ->
   Golr.loop (oss1 ++ oss2) m = Golr.loop oss1 m).
Proof.
  assert (Happ : forall oss1 m,
    Golr.loop (oss1 ++ oss2) m =
      (fst (Golr.loop oss2 (fst (Golr.loop oss1 m))),
       snd (Golr.loop oss1 m) ++ snd (Golr.loop oss2 (fst (Golr.loop oss1 m))))).
  { clear. induction oss1 as [|os oss1 IH]; intros m.
    - cbn [app Golr.loop fst snd].
      destruct (Golr.loop oss2 m); reflexivity.
    - destruct (State_eqb (Golr.state m) exiting) eqn:Hst.
      + assert (Hex : Golr.state m = exiting)
          by (destruct (Golr.state m); (reflexivity || discriminate)).
        cbn [app]. rewrite (loop_exiting (os :: oss1 ++ oss2) m Hex).
        rewrite (loop_exiting (os :: oss1) m Hex). cbn [fst snd].
        rewrite (loop_exiting oss2 m Hex). reflexivity.
      + assert (Hne : Golr.state m <> exiting)
          by (intros Heq; rewrite Heq in Hst; discriminate).
        cbn [app]. rewrite !loop_cons by assumption. cbn [fst snd].
        rewrite IH. cbn [fst snd]. rewrite app_assoc. reflexivity. }
  split; [apply Happ|].
  intros Hex. rewrite Happ, loop_exiting by assumption. cbn [fst snd].
  rewrite app_nil_r. destruct (Golr.loop oss1 m); reflexivity.
Qed.

Lemma kill_keeps_config (os : OS) (r : Golr.Runner) :
  Golr.r_outfile (snd (fst (Golr.kill os r))) = Golr.r_outfile r /\
  Golr.r_pchan (snd (fst (Golr.kill os r))) = Golr.r_pchan r.
Proof. unfold Golr.kill. destruct (Golr.r_proc r); auto. Qed.

Lemma spawn_keeps_config (os : OS) (r : Golr.Runner) :
  Golr.r_outfile (snd (fst (Golr.spawn os r))) = Golr.r_outfile r /\
  Golr.r_pchan (snd (fst (Golr.spawn os r))) = Golr.r_pchan r.
Proof.
  unfold Golr.spawn. destruct (os_start_process os _ _ _); auto.
Qed.

Lemma detect_keeps_config (os : OS) (s : Scanner) :
  s_srcs (snd (fst (Golr.detect os s))) = s_srcs s /\
  s_dirs (snd (fst (Golr.detect os s))) = s_dirs s /\
  s_mtime s <= s_mtime (snd (fst (Golr.detect os s))).
Proof.
  destruct (detect_result_of os s); cbn [fst snd s_srcs s_dirs s_mtime];
    repeat split; lia.
Qed.

Lemma exiting_dec (m : Golr.Main) :
  {Golr.state m = exiting} + {Golr.state m <> exiting}.
Proof. destruct (Golr.state m); (left; reflexivity) || (right; discriminate). Qed.

Lemma same_config_refl (m : Golr.Main) : same_config m m.
Proof. unfold same_config. repeat split; lia. Qed.

Lemma same_config_trans (m1 m2 m3 : Golr.Main) :
  same_config m1 m2 -> same_config m2 m3 -> same_config m1 m3.
Proof.
  unfold same_config.
  intros (Hb & Hs & Hd & Ht & Ho & Hc) (Hb' & Hs' & Hd' & Ht' & Ho' & Hc').
  repeat split; try congruence. lia.
Qed.

Ltac same_config_now :=
  unfold same_config; cbn; repeat split; auto; try lia.

Lemma iteration_same_config (os : OS) (m : Golr.Main) :
  same_config m (fst (Golr.iteration os m)).
Proof.
  pose proof (detect_keeps_config os (Golr.scanner m)) as (Hs & Hd & Ht).
  pose proof (kill_keeps_config os (Golr.runner m)) as [Ho Hc].
  pose proof (spawn_keeps_config os (Golr.runner m)) as [Ho' Hc'].
  unfold Golr.iteration, Golr.select.
  destruct (Golr.state m).
  - destruct (Golr.build os (Golr.builder m)) as [[e|] t1].
    + same_config_now.
    + destruct (Golr.spawn os (Golr.runner m)) as [[o r'] t2].
      cbn [fst snd] in *. same_config_now.
  - destruct (os_select os); [|same_config_now..].
    destruct (Golr.detect os (Golr.scanner m)) as [[[|] s'] t1];
      cbn [fst snd] in *; [|same_config_now].
    destruct (Golr.kill os (Golr.runner m)) as [[k r'] t2].
    cbn [fst snd] in *. same_config_now.
  - destruct (os_select os); [|same_config_now..].
    destruct (Golr.detect os (Golr.scanner m)) as [[[|] s'] t1];
      cbn [fst snd] in *; [|same_config_now].
    destruct (Golr.kill os (Golr.runner m)) as [[k r'] t2].
    cbn [fst snd] in *. same_config_now.
  - same_config_now.
Qed.

(** X9.  However long the loop runs and whatever the operating system
    answers, it never changes what it builds, what it watches or what it
    runs: the builder, the watched sources and directories, the output
    file and the completion channel at the end are those at the start; and
    the baseline at the end is not earlier than at the start. *)
Theorem loop_keeps_configuration (oss : list OS) (m : Golr.Main) :
  same_config m (fst (Golr.loop oss m)).
Proof.
  revert m. induction oss as [|os oss IH]; intros m.
  - apply same_config_refl.
  - destruct (exiting_dec m) as [Hex|Hne].
    + rewrite loop_exiting by assumption. apply same_config_refl.
    + rewrite loop_cons by assumption. cbn [fst].
      eapply same_config_trans; [apply iteration_same_config | apply IH].
Qed.

Lemma iteration_requests (os : OS) (m : Golr.Main) :
  Forall (request_of (Golr.builder m) (Golr.r_outfile (Golr.runner m))
            [Golr.r_outfile (Golr.runner m)] (Golr.r_pchan (Golr.runner m)))
         (snd (Golr.iteration os m)).
Proof.
  unfold Golr.iteration.
  destruct (Golr.state m).
  - unfold Golr.build.
    destruct (os_combined_output os "go" _) as [out [e|]].
    + cbn. repeat constructor.
    + unfold Golr.spawn.
      destruct (os_start_process os _ _ _); cbn; repeat constructor.
  - unfold Golr.select. destruct (os_select os).
    + destruct (detect_result_of os (Golr.scanner m)).
      * cbn. repeat constructor.
      * unfold Golr.kill. destruct (Golr.r_proc (Golr.runner m));
          cbn; repeat constructor.
    + cbn. destruct (Err pstate); repeat constructor.
    + cbn. repeat constructor.
  - unfold Golr.select. destruct (os_select os).
    + destruct (detect_result_of os (Golr.scanner m)).
      * cbn. repeat constructor.
      * unfold Golr.kill. destruct (Golr.r_proc (Golr.runner m));
          cbn; repeat constructor.
    + cbn. destruct (Err pstate); repeat constructor.
    + cbn. repeat constructor.
  - constructor.
Qed.

(** X10.  Everything the loop ever asks of the operating system is fixed
    at its start: every command it runs is [go build -o] with the output
    file and the sources of the builder, every process it starts is the
    output file of the runner with itself as the only argument and the
    three standard streams, every waiter reports on the runner's channel,
    and every delay is 250 milliseconds. *)
Theorem loop_requests_fixed (oss : list OS) (m : Golr.Main) :
  Forall (request_of (Golr.builder m) (Golr.r_outfile (Golr.runner m))
            [Golr.r_outfile (Golr.runner m)] (Golr.r_pchan (Golr.runner m)))
         (snd (Golr.loop oss m)).
Proof.
  revert m. induction oss as [|os oss IH]; intros m.
  - constructor.
  - destruct (exiting_dec m) as [Hex|Hne].
    + rewrite loop_exiting by assumption. constructor.
    + rewrite loop_cons by assumption. cbn [snd].
      apply Forall_app. split; [apply iteration_requests|].
      destruct (iteration_same_config os m) as (Hb & _ & _ & _ & Ho & Hc).
      specialize (IH (fst (Golr.iteration os m))).
      rewrite Hb, Ho, Hc in IH. exact IH.
Qed.

Ltac in_cases Hin :=
  cbn in Hin;
  repeat (destruct Hin as [Hin|Hin]; [try discriminate Hin|]);
  try contradiction.

Lemma iteration_kill_tracked (os : OS) (m : Golr.Main) (p : Process) :
  In (ProcKill p) (snd (Golr.iteration os m)) ->
  Golr.r_proc (Golr.runner m) = Some p.
Proof.
  unfold Golr.iteration, Golr.select, Golr.build, Golr.spawn.
  destruct (Golr.state m).
  - destruct (os_combined_output os "go" _) as [out [e|]];
      [|destruct (os_start_process os _ _ _)]; intros Hin; in_cases Hin.
  - destruct (os_select os) as [|pstate|sig].
    + destruct (detect_result_of os (Golr.scanner m))
        as [Hall | pre f post T Hfs Hpre Hf Hlt].
      * intros Hin; in_cases Hin.
      * unfold Golr.kill. destruct (Golr.r_proc (Golr.runner m));
          intros Hin; in_cases Hin. congruence.
    + destruct (Err pstate); intros Hin; in_cases Hin.
    + intros Hin; in_cases Hin.
  - destruct (os_select os) as [|pstate|sig].
    + destruct (detect_result_of os (Golr.scanner m))
        as [Hall | pre f post T Hfs Hpre Hf Hlt].
      * intros Hin; in_cases Hin.
      * unfold Golr.kill. destruct (Golr.r_proc (Golr.runner m));
          intros Hin; in_cases Hin. congruence.
    + destruct (Err pstate); intros Hin; in_cases Hin.
    + intros Hin; in_cases Hin.
  - intros [].
Qed.

Lemma iteration_handle_origin (os : OS) (m : Golr.Main) (p : Process) :
  Golr.r_proc (Golr.runner (fst (Golr.iteration os m))) = Some p ->
  Golr.r_proc (Golr.runner m) = Some p \/
  In (GoWait (Golr.r_outfile (Golr.runner m)) p (Golr.r_pchan (Golr.runner m)))
     (snd (Golr.iteration os m)).
Proof.
  unfold Golr.iteration.
  destruct (Golr.state m).
  - unfold Golr.build.
    destruct (os_combined_output os "go" _) as [out [e|]].
    + cbn. auto.
    + unfold Golr.spawn.
      destruct (os_start_process os _ _ _); cbn; [|auto].
      intros [= ->]. right. auto 10.
  - unfold Golr.select. destruct (os_select os); cbn; auto.
    destruct (detect_result_of os (Golr.scanner m)); cbn; auto.
    unfold Golr.kill. destruct (Golr.r_proc (Golr.runner m)) eqn:Hp; cbn;
      intros Hq; [discriminate | congruence].
  - unfold Golr.select. destruct (os_select os); cbn; auto.
    destruct (detect_result_of os (Golr.scanner m)); cbn; auto.
    unfold Golr.kill. destruct (Golr.r_proc (Golr.runner m)) eqn:Hp; cbn;
      intros Hq; [discriminate | congruence].
  - auto.
Qed.

Lemma loop_handle_origin (oss : list OS) :
  forall (m : Golr.Main) (p : Process),
    Golr.r_proc (Golr.runner (fst (Golr.loop oss m))) = Some p ->
    Golr.r_proc (Golr.runner m) = Some p \/
    In (GoWait (Golr.r_outfile (Golr.runner m)) p (Golr.r_pchan (Golr.runner m)))
       (snd (Golr.loop oss m)).
Proof.
  induction oss as [|os oss IH]; intros m p; [cbn; auto|].
  destruct (exiting_dec m) as [Hex|Hne].
  - rewrite loop_exiting by assumption. cbn. auto.
  - rewrite loop_cons by assumption. cbn [fst snd]. intros Hp.
    destruct (iteration_same_config os m) as (_ & _ & _ & _ & Ho & Hc).
    destruct (IH _ _ Hp) as [H1|H1].
    + destruct (iteration_handle_origin os m p H1) as [H0|H0]; [auto|].
      right. apply in_or_app. auto.
    + right. apply in_or_app. right. rewrite <- Ho, <- Hc. exact H1.
Qed.

(** X11.  The loop only ever kills a process it is tracking, and it only
    tracks processes it has started: whenever a kill of [p] is requested
    during a run, either [p] was the handle the run began with, or the run
    has started a waiter for [p]; and the same holds for the handle the
    run ends with. *)
Theorem kills_only_started (oss : list OS) (m : Golr.Main) (p : Process) :
  (In (ProcKill p) (snd (Golr.loop oss m)) ->
   Golr.r_proc (Golr.runner m) = Some p \/
   In (GoWait (Golr.r_outfile (Golr.runner m)) p (Golr.r_pchan (Golr.runner m)))
      (snd (Golr.loop oss m))) /\
  (Golr.r_proc (Golr.runner (fst (Golr.loop oss m))) = Some p ->
   Golr.r_proc (Golr.runner m) = Some p \/
   In (GoWait (Golr.r_outfile (Golr.runner m)) p (Golr.r_pchan (Golr.runner m)))
      (snd (Golr.loop oss m))).
Proof.
  split; [|apply loop_handle_origin].
  revert m. induction oss as [|os oss IH]; intros m; [intros []|].
  destruct (exiting_dec m) as [Hex|Hne].
  - rewrite loop_exiting by assumption. intros [].
  - rewrite loop_cons by assumption. cbn [fst snd]. intros Hin.
    destruct (iteration_same_config os m) as (_ & _ & _ & _ & Ho & Hc).
    apply in_app_or in Hin. destruct Hin as [Hin|Hin].
    + left. apply (iteration_kill_tracked os m p Hin).
    + destruct (IH _ Hin) as [H1|H1].
      * destruct (iteration_handle_origin os m p H1) as [H0|H0]; [auto|].
        right. apply in_or_app. auto.
      * right. apply in_or_app. right. rewrite <- Ho, <- Hc. exact H1.
Qed.

Lemma kills_only_started_sample :
  In (GoWait "/tmp/lr-bin" child1 0%nat)
     (snd (Golr.loop [os_build_ok; os_changed; os_changed] main0)).
Proof.
  destruct (proj1 (kills_only_started [os_build_ok; os_changed; os_changed]
                     main0 child1)) as [H|H].
  - vm_compute. auto 10.
  - discriminate H.
  - exact H.
Defined.

(** X12.  The transitions out of [running].  With no channel ready, a
    detected change leads to [killing] when a child is tracked, and the
    kill of that child is the only kill requested; it leads straight to
    [building] when none is tracked; without a change the state stays
    [running].  A message on the completion channel and a signal both lead
    to [exiting], and neither requests a kill. *)
Theorem running_transitions (os : OS) (m : Golr.Main) :
  Golr.state m = running ->
  Golr.state (fst (Golr.iteration os m)) =
    match os_select os with
    | NoComm =>
        if fst (fst (Golr.detect os (Golr.scanner m)))
        then match Golr.r_proc (Golr.runner m) with
             | Some _ => killing
             | None => building
             end
        else running
    | _ => exiting
    end /\
  filter is_kill (snd (Golr.iteration os m)) =
    match os_select os, Golr.r_proc (Golr.runner m) with
    | NoComm, Some p =>
        if fst (fst (Golr.detect os (Golr.scanner m))) then [ProcKill p] else []
    | _, _ => []
    end.
Proof.
  intros Hst. unfold Golr.iteration, Golr.select. rewrite Hst.
  destruct (os_select os) as [|pstate|sig].
  - destruct (detect_result_of os (Golr.scanner m))
      as [Hall | pre f post T Hfs Hpre Hf Hlt]; cbn [fst snd].
    + destruct (Golr.r_proc (Golr.runner m)); auto.
    + unfold Golr.kill. destruct (Golr.r_proc (Golr.runner m)); auto.
  - destruct (Err pstate), (Golr.r_proc (Golr.runner m)); auto.
  - destruct (Golr.r_proc (Golr.runner m)); auto.
Qed.

Lemma running_transitions_sample :
  Golr.state (fst (Golr.iteration os_changed
                     (fst (Golr.iteration os_build_ok main0)))) = killing /\
  Golr.state (fst (Golr.iteration os_changed
                     (fst (Golr.iteration os_build_fails main0)))) = building.
Proof.
  split.
  - apply (proj1 (running_transitions os_changed
                    (fst (Golr.iteration os_build_ok main0)) eq_refl)).
  - apply (proj1 (running_transitions os_changed
                    (fst (Golr.iteration os_build_fails main0)) eq_refl)).
Defined.

(** A state in [killing] after a kill, with the late change of [b.go]:
    the sample for [killing_transitions]. *)
Lemma killing_transitions_sample :
  Golr.state (fst (Golr.iteration os_changed
                     (fst (Golr.loop [os_build_ok; os_changed] main0)))) =
    building /\
  Golr.state (fst (Golr.iteration os_build_ok
                     (fst (Golr.loop [os_build_ok; os_changed] main0)))) =
    killing.
Proof.
  split.
  - apply (killing_transitions os_changed
             (fst (Golr.loop [os_build_ok; os_changed] main0))).
    + apply reachable_loop. apply reach_init.
    + reflexivity.
  - apply (killing_transitions os_build_ok
             (fst (Golr.loop [os_build_ok; os_changed] main0))).
    + apply reachable_loop. apply reach_init.
    + reflexivity.
Defined.

(** X14.  In [building] the build decides whether anything is started.
    When it fails, no process start is attempted, no waiter is started, the
    runner is untouched and the error is printed.  When it succeeds,
    exactly one start is attempted: the output file, with itself as the
    only argument and the three standard streams of the coordinator. *)
Theorem build_gates_start (os : OS) (m : Golr.Main) :
  Golr.state m = building ->
  (fst (Golr.build os (Golr.builder m)) <> None ->
   filter is_start (snd (Golr.iteration os m)) = [] /\
   filter is_gowait (snd (Golr.iteration os m)) = [] /\
   Golr.runner (fst (Golr.iteration os m)) = Golr.runner m /\
   existsb logs_error (snd (Golr.iteration os m)) = true) /\
  (fst (Golr.build os (Golr.builder m)) = None ->
   filter is_start (snd (Golr.iteration os m)) =
     [StartProcess (Golr.r_outfile (Golr.runner m))
        [Golr.r_outfile (Golr.runner m)] [Stdin; Stdout; Stderr]]).
Proof.
  intros Hst. unfold Golr.iteration, Golr.build, Golr.spawn. rewrite Hst.
  destruct (os_combined_output os "go" _) as [out [e|]]; cbn [fst snd].
  - split; [intros _ | discriminate]. cbn. auto.
  - split; [intros Hne; now elim Hne | intros _].
    destruct (os_start_process os _ _ _); reflexivity.
Qed.

Lemma build_gates_start_sample :
  filter is_start (snd (Golr.iteration os_build_fails main0)) = [] /\
  filter is_start (snd (Golr.iteration os_start_fails main0)) =
    [StartProcess "/tmp/lr-bin" ["/tmp/lr-bin"] [Stdin; Stdout; Stderr]].
Proof.
  split.
  - apply (proj1 (build_gates_start os_build_fails main0 eq_refl)).
    discriminate.
  - apply (proj2 (build_gates_start os_start_fails main0 eq_refl)).
    reflexivity.
Defined.

(** X15.  A signal ends the loop at once and nothing else happens: from
    [running] or [killing], the iteration that receives it prints the
    signal, sleeps and leaves the loop, whatever oracles remain; the
    scanner is not polled, and the runner is untouched, so a tracked child
    is neither killed nor forgotten. *)
Theorem signal_ends_loop_without_kill (os : OS) (oss : list OS)
  (m : Golr.Main) (sig : Signal) :
  os_select os = SigComm sig ->
  Golr.state m = running \/ Golr.state m = killing ->
  Golr.loop (os :: oss) m =
    ({| Golr.scanner := Golr.scanner m; Golr.builder := Golr.builder m;
        Golr.runner := Golr.runner m; Golr.state := exiting |},
     [Printf "Signal: %s\n" [ASignal sig]; Sleep (250 * Millisecond)]).
Proof.
  intros Hsel Hst.
  assert (Hit : Golr.iteration os m =
    ({| Golr.scanner := Golr.scanner m; Golr.builder := Golr.builder m;
        Golr.runner := Golr.runner m; Golr.state := exiting |},
     [Printf "Signal: %s\n" [ASignal sig]; Sleep (250 * Millisecond)])).
  { rewrite iteration_select by assumption.
    unfold Golr.select. rewrite Hsel. reflexivity. }
  rewrite loop_cons by (destruct Hst as [H|H]; rewrite H; discriminate).
  rewrite Hit. cbn [fst snd]. rewrite loop_exiting by reflexivity.
  cbn [fst snd]. rewrite app_nil_r. reflexivity.
Qed.

Lemma signal_ends_loop_without_kill_sample :
  Golr.r_proc (Golr.runner
    (fst (Golr.loop [os_signal; os_changed]
            (fst (Golr.iteration os_build_ok main0))))) = Some child1.
Proof.
  rewrite (signal_ends_loop_without_kill os_signal [os_changed]
             (fst (Golr.iteration os_build_ok main0)) Interrupt eq_refl
             (or_introl eq_refl)).
  reflexivity.
Defined.

(** X16.  While no channel is ready and no watched file is newer than the
    baseline, the loop idles: from [running] or [killing], any number of
    iterations leaves every loop variable as it is and does nothing but
    sleep 250 milliseconds per iteration. *)
Theorem idle_loop_only_sleeps (oss : list OS) (m : Golr.Main) :
  Golr.state m = running \/ Golr.state m = killing ->
  (forall os, In os oss ->
     os_select os = NoComm /\
     forall f t, In f (s_srcs (Golr.scanner m)) -> os_stat os f = Some t ->
                 t <= s_mtime (Golr.scanner m)) ->
  Golr.loop oss m = (m, repeat (Sleep (250 * Millisecond)) (List.length oss)).
Proof.
  intros Hst. induction oss as [|os oss IH]; intros Hidle; [reflexivity|].
  destruct (Hidle os (or_introl eq_refl)) as [Hsel Hquiet].
  assert (Hit : Golr.iteration os m = (m, [Sleep (250 * Millisecond)])).
  { rewrite iteration_select by assumption.
    unfold Golr.select. rewrite Hsel.
    assert (Hf : fst (fst (Golr.detect os (Golr.scanner m))) = false)
      by (apply detect_false_iff; exact Hquiet).
    destruct (detect_result_of os (Golr.scanner m)); [|discriminate].
    destruct m; reflexivity. }
  rewrite loop_cons by (destruct Hst as [H|H]; rewrite H; discriminate).
  rewrite Hit. cbn [fst snd].
  rewrite IH by (intros os' Hin; apply Hidle; right; exact Hin).
  reflexivity.
Qed.

Lemma idle_loop_only_sleeps_sample :
  Golr.loop [os_build_ok; os_build_fails]
            (fst (Golr.iteration os_build_ok main0)) =
    (fst (Golr.iteration os_build_ok main0),
     [Sleep (250 * Millisecond); Sleep (250 * Millisecond)]).
Proof.
  apply (idle_loop_only_sleeps [os_build_ok; os_build_fails]
           (fst (Golr.iteration os_build_ok main0)) (or_introl eq_refl)).
  intros os [<-|[<-|[]]]; (split; [reflexivity|]);
    intros f t [<-|[<-|[]]]; cbn; intros [= <-]; vm_compute;
    intros H; discriminate H.
Defined.

(** X17.  The restart cycle.  From [running] with child [p]: an iteration
    that detects a change, then one that receives the exit of the killed
    child, then one in which the build and the start succeed with process
    [q], end in [running] with [q] tracked; and what the three iterations
    ask of the operating system is, in this order, the kill of [p], two
    polling delays, the build command, the start of the output file and
    the waiter for [q]. *)
Theorem restart_cycle (os1 os2 os3 : OS) (m : Golr.Main) (p q : Process)
  (pstate : PStateErr) (out : bytes) :
  Golr.state m = running ->
  Golr.r_proc (Golr.runner m) = Some p ->
  os_select os1 = NoComm ->
  fst (fst (Golr.detect os1 (Golr.scanner m))) = true ->
  os_select os2 = ProcComm pstate ->
  os_combined_output os3 "go"
    ("build" :: "-o" :: b_outfile (Golr.builder m) :: b_srcs (Golr.builder m))
    = (out, None) ->
  os_start_process os3 (Golr.r_outfile (Golr.runner m))
    [Golr.r_outfile (Golr.runner m)] [Stdin; Stdout; Stderr] = inl q ->
  Golr.state (fst (Golr.loop [os1; os2; os3] m)) = running /\
  Golr.r_proc (Golr.runner (fst (Golr.loop [os1; os2; os3] m))) = Some q /\
  requests (snd (Golr.loop [os1; os2; os3] m)) =
    [ProcKill p; Sleep (250 * Millisecond); Sleep (250 * Millisecond);
     Exec "go" ("build" :: "-o" :: b_outfile (Golr.builder m)
                  :: b_srcs (Golr.builder m));
     StartProcess (Golr.r_outfile (Golr.runner m))
       [Golr.r_outfile (Golr.runner m)] [Stdin; Stdout; Stderr];
     GoWait (Golr.r_outfile (Golr.runner m)) q (Golr.r_pchan (Golr.runner m))].
Proof.
  intros Hst Hp Hsel1 Hd Hsel2 Hgo Hstart.
  set (r0 := {| Golr.r_outfile := Golr.r_outfile (Golr.runner m);
                Golr.r_pchan := Golr.r_pchan (Golr.runner m);
                Golr.r_proc := None |}).
  set (s1 := snd (fst (Golr.detect os1 (Golr.scanner m)))).
  set (m1 := {| Golr.scanner := s1; Golr.builder := Golr.builder m;
                Golr.runner := r0; Golr.state := killing |}).
  set (m2 := {| Golr.scanner := s1; Golr.builder := Golr.builder m;
                Golr.runner := r0; Golr.state := building |}).
  assert (H1 : fst (Golr.iteration os1 m) = m1 /\
               requests (snd (Golr.iteration os1 m)) =
                 [ProcKill p; Sleep (250 * Millisecond)]).
  { rewrite iteration_select by auto. cbn [fst snd]. split.
    - rewrite select_default by assumption. rewrite Hd.
      unfold Golr.kill. rewrite Hp. reflexivity.
    - rewrite requests_app. unfold Golr.select. rewrite Hsel1.
      pose proof (detect_no_requests os1 (Golr.scanner m)) as Hn.
      destruct (Golr.detect os1 (Golr.scanner m)) as [[d s'] t1].
      cbn [fst snd] in Hd, Hn. subst d.
      unfold Golr.kill. rewrite Hp. cbn [snd].
      rewrite requests_app, Hn. reflexivity. }
  assert (H2 : fst (Golr.iteration os2 m1) = m2 /\
               requests (snd (Golr.iteration os2 m1)) =
                 [Sleep (250 * Millisecond)]).
  { rewrite iteration_select by (right; reflexivity). cbn [fst snd]. split.
    - rewrite select_comm by congruence. rewrite Hsel2. reflexivity.
    - unfold Golr.select. rewrite Hsel2. cbn [snd].
      destruct (Err pstate); reflexivity. }
  assert (H3 : Golr.state (fst (Golr.iteration os3 m2)) = running /\
               Golr.r_proc (Golr.runner (fst (Golr.iteration os3 m2))) = Some q /\
               requests (snd (Golr.iteration os3 m2)) =
                 [Exec "go" ("build" :: "-o" :: b_outfile (Golr.builder m)
                               :: b_srcs (Golr.builder m));
                  StartProcess (Golr.r_outfile (Golr.runner m))
                    [Golr.r_outfile (Golr.runner m)] [Stdin; Stdout; Stderr];
                  GoWait (Golr.r_outfile (Golr.runner m)) q
                    (Golr.r_pchan (Golr.runner m))]).
  { unfold Golr.iteration, Golr.build, Golr.spawn, m2, r0.
    cbn [Golr.state Golr.builder Golr.runner Golr.r_outfile Golr.r_pchan].
    rewrite Hgo, Hstart. repeat split. }
  destruct H1 as [E1 R1]. destruct H2 as [E2 R2]. destruct H3 as (E3 & P3 & R3).
  rewrite loop_cons by (rewrite Hst; discriminate). rewrite E1.
  rewrite loop_cons by discriminate. rewrite E2.
  rewrite loop_cons by discriminate. cbn [Golr.loop fst snd].
  split; [exact E3|]. split; [exact P3|].
  rewrite !requests_app, R1, R2, R3. reflexivity.
Qed.

Lemma restart_cycle_sample :
  Golr.r_proc (Golr.runner
    (fst (Golr.loop [os_changed; os_child_exit; os_build_ok2]
            (fst (Golr.iteration os_build_ok main0))))) = Some child2.
Proof.
  apply (restart_cycle os_changed os_child_exit os_build_ok2
           (fst (Golr.iteration os_build_ok main0)) child1 child2 exited []);
    reflexivity.
Defined.

(** ** main *)

Lemma echo_no_requests (values : list string) :
  requests (map (fun v => Printf "%s\n" [AStr v]) values) = [].
Proof. induction values as [|v values IH]; [reflexivity | exact IH]. Qed.

Lemma Set_all_echo (values : list string) :
  Set_all [] values = (values, map (fun v => Printf "%s\n" [AStr v]) values).
Proof. unfold Set_all. rewrite Set_all_from. reflexivity. Qed.

(** X18.  How [main] of [golr.go] ends, with [echo] the lines that [Set]
    prints for the [-d] values.  When the flag parser ends the process,
    the status is the parser's and only the echo of the [-d] values met so
    far has been printed.  Otherwise, after the echo: without source files
    [main] exits with status 1 after the line "No source files"; when the
    output path cannot be made absolute it exits with status 1 after the
    error of [filepath.Abs]; when the loop reaches [exiting] it prints
    "Done running" last and ends with status 0; and as long as the loop
    has not reached [exiting] it has not ended.  So whenever [main] has
    ended it has either built and started nothing, or gone through the
    loop to [exiting] and returned 0.  The value of [-r] changes nothing
    and the values of [-d] change only the echo. *)
Theorem main_exit_status (os : OS) (parse : list string -> GolrCmd.Parse)
  (abs : string -> string + error) (args : list string) (pchan : Chan)
  (oss : list OS) :
  let echo := map (fun v => Printf "%s\n" [AStr v]) in
  (forall ds status,
     parse args = GolrCmd.ParseExit ds status ->
     GolrCmd.main os parse abs args pchan oss = Some (echo ds, status)) /\
  (forall r o ds,
     parse args = GolrCmd.Parsed r o ds [] ->
     GolrCmd.main os parse abs args pchan oss =
       Some (echo ds ++ [Println [AStr "*** Error:"; AStr "No source files"]],
             1)) /\
  (forall r o ds srcs e,
     parse args = GolrCmd.Parsed r o ds srcs -> srcs <> [] ->
     abs o = inr e ->
     GolrCmd.main os parse abs args pchan oss =
       Some (echo ds ++ [Println [AStr "*** Error:"; AStr e]], 1)) /\
  (forall r o ds srcs outfile,
     parse args = GolrCmd.Parsed r o ds srcs -> srcs <> [] ->
     abs o = inl outfile ->
     GolrCmd.main os parse abs args pchan oss =
       if State_eqb
            (Golr.state (fst (Golr.loop oss (Golr.init os srcs outfile pchan))))
            exiting
       then Some (echo ds ++
                  snd (Golr.loop oss (Golr.init os srcs outfile pchan)) ++
                  [Printf "Done running\n" []], 0)
       else None) /\
  (forall t code,
     GolrCmd.main os parse abs args pchan oss = Some (t, code) ->
     requests t = [] \/
     (code = 0 /\
      exists r o ds srcs outfile,
        parse args = GolrCmd.Parsed r o ds srcs /\ srcs <> [] /\
        abs o = inl outfile /\
        Golr.state (fst (Golr.loop oss (Golr.init os srcs outfile pchan)))
          = exiting)) /\
  (forall parse' r r' o ds ds' srcs,
     parse args = GolrCmd.Parsed r o ds srcs ->
     parse' args = GolrCmd.Parsed r' o ds' srcs ->
     forall t code,
       GolrCmd.main os parse' abs args pchan oss = Some (echo ds' ++ t, code) ->
       GolrCmd.main os parse abs args pchan oss = Some (echo ds ++ t, code)).
Proof.
  cbv zeta.
  assert (Hparsed : forall r o ds srcs,
    parse args = GolrCmd.Parsed r o ds srcs ->
    GolrCmd.main os parse abs args pchan oss =
      if Nat.eqb (List.length srcs) 0
      then Some (map (fun v => Printf "%s\n" [AStr v]) ds ++
                 [Println [AStr "*** Error:"; AStr "No source files"]], 1)
      else match abs o with
           | inr err =>
               Some (map (fun v => Printf "%s\n" [AStr v]) ds ++
                     [Println [AStr "*** Error:"; AStr err]], 1)
           | inl outfile =>
               if State_eqb
                    (Golr.state
                       (fst (Golr.loop oss (Golr.init os srcs outfile pchan))))
                    exiting
               then Some (map (fun v => Printf "%s\n" [AStr v]) ds ++
                          snd (Golr.loop oss (Golr.init os srcs outfile pchan))
                          ++ [Printf "Done running\n" []], 0)
               else None
           end).
  { intros r o ds srcs Hp. unfold GolrCmd.main. rewrite Hp, Set_all_echo.
    cbn [Golr.outfile Golr.FatalError fst].
    destruct (Nat.eqb (List.length srcs) 0); [reflexivity|].
    destruct (abs o) as [outfile|e]; [|reflexivity].
    destruct (Golr.loop oss (Golr.init os srcs outfile pchan)) as [m t].
    cbn [fst snd]. destruct (Golr.state m); reflexivity. }
  split; [|split; [|split; [|split; [|split]]]].
  - intros ds status Hp. unfold GolrCmd.main. rewrite Hp, Set_all_echo.
    reflexivity.
  - intros r o ds Hp. rewrite (Hparsed _ _ _ _ Hp). reflexivity.
  - intros r o ds srcs e Hp Hne Habs. rewrite (Hparsed _ _ _ _ Hp), Habs.
    destruct srcs; [congruence | reflexivity].
  - intros r o ds srcs outfile Hp Hne Habs.
    rewrite (Hparsed _ _ _ _ Hp), Habs.
    destruct srcs; [congruence | reflexivity].
  - intros t code. destruct (parse args) as [ds status|r o ds srcs] eqn:Hp.
    + unfold GolrCmd.main. rewrite Hp, Set_all_echo. intros [= <- <-].
      left. apply echo_no_requests.
    + rewrite (Hparsed _ _ _ _ eq_refl).
      destruct srcs as [|f srcs].
      * cbn. intros [= <- <-]. left.
        rewrite requests_app, echo_no_requests. reflexivity.
      * cbn [List.length Nat.eqb].
        destruct (abs o) as [outfile|e] eqn:Habs.
        -- destruct (Golr.state (fst (Golr.loop oss _))) eqn:Hst;
             cbn [State_eqb]; try discriminate.
           intros [= <- <-]. right. split; [reflexivity|].
           exists r, o, ds, (f :: srcs), outfile.
           split; [reflexivity|]. split; [discriminate|]. auto.
        -- intros [= <- <-]. left.
           rewrite requests_app, echo_no_requests. reflexivity.
  - intros parse' r r' o ds ds' srcs Hp Hp' t code.
    rewrite (Hparsed _ _ _ _ Hp).
    unfold GolrCmd.main. rewrite Hp', Set_all_echo.
    cbn [Golr.outfile Golr.FatalError fst].
    destruct (Nat.eqb (List.length srcs) 0).
    { intros [= Ht <-]. apply app_inv_head in Ht. subst t. reflexivity. }
    destruct (abs o) as [outfile|e].
    + destruct (Golr.loop oss (Golr.init os srcs outfile pchan)) as [m tl].
      cbn [fst snd]. destruct (Golr.state m); cbn [State_eqb]; try discriminate.
      intros [= Ht <-]. apply app_inv_head in Ht. subst t. reflexivity.
    + intros [= Ht <-]. apply app_inv_head in Ht. subst t. reflexivity.
Qed.

Lemma main_exit_status_sample :
  GolrCmd.main os_build_ok parse_golr abs_tmp ["-h"] 0%nat [os_build_ok] =
    Some ([], 0) /\
  GolrCmd.main os_build_ok parse_golr abs_tmp ["-d"; "pkg"; "-x"] 0%nat
    [os_build_ok] = Some ([Printf "%s\n" [AStr "pkg"]], 2) /\
  GolrCmd.main os_build_ok parse_golr abs_tmp ["-d"; "pkg"] 0%nat [os_build_ok] =
    Some ([Printf "%s\n" [AStr "pkg"];
           Println [AStr "*** Error:"; AStr "No source files"]], 1) /\
  GolrCmd.main os_build_ok parse_golr abs_fails ["a.go"] 0%nat [os_build_ok] =
    Some ([Println [AStr "*** Error:"; AStr "getwd: no such file"]], 1) /\
  GolrCmd.main os_build_ok parse_golr abs_tmp ["a.go"] 0%nat [os_build_ok] =
    None.
Proof.
  split; [|split; [|split; [|split]]].
  - apply (proj1 (main_exit_status os_build_ok parse_golr abs_tmp ["-h"] 0%nat
                    [os_build_ok]) [] 0 eq_refl).
  - apply (proj1 (main_exit_status os_build_ok parse_golr abs_tmp
                    ["-d"; "pkg"; "-x"] 0%nat [os_build_ok]) ["pkg"] 2 eq_refl).
  - apply (proj1 (proj2 (main_exit_status os_build_ok parse_golr abs_tmp
                           ["-d"; "pkg"] 0%nat [os_build_ok]))
             "" "lr-bin" ["pkg"] eq_refl).
  - apply (proj1 (proj2 (proj2 (main_exit_status os_build_ok parse_golr
                                  abs_fails ["a.go"] 0%nat [os_build_ok])))
             "" "lr-bin" [] ["a.go"] "getwd: no such file" eq_refl);
      [discriminate | reflexivity].
  - rewrite (proj1 (proj2 (proj2 (proj2
               (main_exit_status os_build_ok parse_golr abs_tmp ["a.go"] 0%nat
                  [os_build_ok]))))
               "" "lr-bin" [] ["a.go"] "/tmp/lr-bin" eq_refl
               ltac:(discriminate) eq_refl).
    reflexivity.
Defined.

Lemma args_iteration_requests (os : OS) (m : GolrArgs.Main) :
  Forall (request_of (GolrArgs.builder m)
            (GolrArgs.r_outfile (GolrArgs.runner m))
            (GolrArgs.r_outfile (GolrArgs.runner m)
               :: GolrArgs.r_args (GolrArgs.runner m))
            (GolrArgs.r_pchan (GolrArgs.runner m)))
         (snd (GolrArgs.iteration os m)).
Proof.
  unfold GolrArgs.iteration, GolrArgs.select, GolrArgs.build, GolrArgs.spawn,
    GolrArgs.kill.
  destruct (GolrArgs.state m).
  - destruct (os_combined_output os "go" _) as [out [e|]];
      [cbn; repeat constructor|].
    destruct (os_start_process os _ _ _); cbn; repeat constructor.
  - destruct (os_select os) as [|pstate|sig].
    + rewrite args_detect_eq.
      destruct (detect_result_of os (GolrArgs.scanner m));
        [cbn; repeat constructor|].
      destruct (GolrArgs.r_proc (GolrArgs.runner m)); cbn; repeat constructor.
    + cbn. destruct (Err pstate); repeat constructor.
    + cbn. repeat constructor.
  - destruct (os_select os) as [|pstate|sig].
    + rewrite args_detect_eq.
      destruct (detect_result_of os (GolrArgs.scanner m));
        [cbn; repeat constructor|].
      destruct (GolrArgs.r_proc (GolrArgs.runner m)); cbn; repeat constructor.
    + cbn. destruct (Err pstate); repeat constructor.
    + cbn. repeat constructor.
  - constructor.
Qed.

Lemma args_loop_requests (oss : list OS) :
  forall m : GolrArgs.Main,
    Forall (request_of (GolrArgs.builder m)
              (GolrArgs.r_outfile (GolrArgs.runner m))
              (GolrArgs.r_outfile (GolrArgs.runner m)
                 :: GolrArgs.r_args (GolrArgs.runner m))
              (GolrArgs.r_pchan (GolrArgs.runner m)))
           (snd (GolrArgs.loop oss m)).
Proof.
  induction oss as [|os oss IH]; intros m; cbn [GolrArgs.loop];
    [constructor|].
  pose proof (args_iteration_requests os m) as Hit.
  destruct (args_iteration_keeps os m) as (Hb & Ho & Ha & Hc).
  destruct (GolrArgs.iteration os m) as [m1 t1]. cbn [fst snd] in *.
  specialize (IH m1). rewrite Hb, Ho, Ha, Hc in IH.
  destruct (GolrArgs.loop oss m1) as [m2 t2]. cbn [fst snd] in *.
  destruct (GolrArgs.state m); cbn [snd];
    try (apply Forall_app; split; assumption).
  constructor.
Qed.

(** X19.  Arguments after "--" belong to the child.  For a command line
    [this ++ "--" :: child] whose first part contains no "--", the flag
    parser of [part_000] is given [this] only: when it rejects [this], the
    program exits with status 1 whatever [child] is.  And when the program
    gets as far as its loop, every process it ever starts is the output
    file with the argument vector [outfile :: child], at the first start
    and at every restart, while the build command never sees [child]. *)
Theorem child_arguments_forwarded (os : OS)
  (parse : list string -> (GolrArgs.Flags * list string) + error)
  (abs : string -> string + error) (this child : list string) (pchan : Chan)
  (oss : list OS) :
  ~ In "--" this ->
  (forall e, parse this = inr e ->
     GolrArgs.main os parse abs (this ++ "--" :: child) pchan oss =
       Some ([], 1)) /\
  (forall opts srcs outfile t code,
     parse this = inl (opts, srcs) ->
     abs (GolrArgs.OutFile opts) = inl outfile ->
     GolrArgs.main os parse abs (this ++ "--" :: child) pchan oss =
       Some (t, code) ->
     Forall (request_of (GolrArgs.NewBuilder outfile srcs) outfile
               (outfile :: child) pchan) t).
Proof.
  intros Hclean. unfold GolrArgs.main.
  rewrite (split_args_marker this child Hclean). split.
  - intros e ->. reflexivity.
  - intros opts srcs outfile t code -> Habs.
    destruct (Nat.eqb (List.length srcs) 0);
      [intros [= <- <-]; repeat constructor|].
    destruct (Nat.eqb (String.length (GolrArgs.OutFile opts)) 0);
      [intros [= <- <-]; repeat constructor|].
    rewrite Habs.
    pose proof (args_loop_requests oss
      (GolrArgs.init os srcs (GolrArgs.Dirs opts) outfile child pchan)) as Hreq.
    cbn [GolrArgs.init GolrArgs.builder GolrArgs.runner GolrArgs.NewRunner
         GolrArgs.r_outfile GolrArgs.r_args GolrArgs.r_pchan] in Hreq.
    destruct (GolrArgs.loop oss _) as [m t']. cbn [snd] in Hreq.
    destruct (GolrArgs.state m); try discriminate.
    intros [= <- <-]. apply Forall_app. split; [exact Hreq|].
    repeat constructor.
Qed.

Lemma child_arguments_forwarded_sample :
  GolrArgs.main os_build_ok parse_sample abs_tmp
    (["-h"] ++ "--" :: ["-port"; "8080"]) 0%nat [os_build_ok] = Some ([], 1) /\
  Forall (request_of (GolrArgs.NewBuilder "/tmp/srv" ["main.go"]) "/tmp/srv"
            ["/tmp/srv"; "-port"; "8080"] 0%nat)
    (snd (GolrArgs.loop [os_build_ok; os_signal]
            (GolrArgs.init os_build_ok ["main.go"] [] "/tmp/srv"
               ["-port"; "8080"] 0%nat)) ++ [Printf "Done running\n" []]).
Proof.
  split.
  - apply (proj1 (child_arguments_forwarded os_build_ok parse_sample abs_tmp
                    ["-h"] ["-port"; "8080"] 0%nat [os_build_ok]
                    ltac:(simpl; intros [H|[]]; discriminate))
             "help requested").
    reflexivity.
  - apply (proj2 (child_arguments_forwarded os_build_ok parse_sample abs_tmp
                    ["-o"; "srv"; "main.go"] ["-port"; "8080"] 0%nat
                    [os_build_ok; os_signal]
                    ltac:(simpl; intros [H|[H|[H|[]]]]; discriminate))
             {| GolrArgs.OutFile := "srv"; GolrArgs.Dirs := [] |}
             ["main.go"] "/tmp/srv" _ 0); reflexivity.
Defined.

Lemma length_zero_empty (s : string) :
  Nat.eqb (String.length s) 0 = true <-> s = "".
Proof. destruct s; cbn; split; (reflexivity || discriminate). Qed.

Lemma no_sources_iff (srcs : list string) :
  Nat.eqb (List.length srcs) 0 = true <-> srcs = [].
Proof. destruct srcs; cbn; split; (reflexivity || discriminate). Qed.

(** X20.  How [main] of [part_000] ends, with [this] the arguments before
    the first "--" and [child] those after it.  Four cases are tried in
    this order, and in each [main] exits with status 1 having built and
    started nothing: the parser rejects [this] (nothing is printed by
    [main]); there are no source files; the output file name is empty; the
    output path cannot be made absolute.  Otherwise the loop is started
    with the parsed sources and directories and with [child] for the
    child: when it reaches [exiting], [main] prints "Done running" last and
    ends with status 0, and as long as it has not, [main] has not ended.
    Conversely, whenever [main] has ended it is in one of these ways. *)
Theorem args_main_exit_status (os : OS)
  (parse : list string -> (GolrArgs.Flags * list string) + error)
  (abs : string -> string + error) (args : list string) (pchan : Chan)
  (oss : list OS) :
  let this := fst (GolrArgs.split_args args) in
  let child := snd (GolrArgs.split_args args) in
  (forall e, parse this = inr e ->
     GolrArgs.main os parse abs args pchan oss = Some ([], 1)) /\
  (forall opts, parse this = inl (opts, []) ->
     GolrArgs.main os parse abs args pchan oss =
       Some ([Println [AStr "*** Error:"; AStr "No source files"]], 1)) /\
  (forall opts srcs,
     parse this = inl (opts, srcs) -> srcs <> [] ->
     GolrArgs.OutFile opts = "" ->
     GolrArgs.main os parse abs args pchan oss =
       Some ([Println [AStr "*** Error:"; AStr "No output file"]], 1)) /\
  (forall opts srcs e,
     parse this = inl (opts, srcs) -> srcs <> [] ->
     GolrArgs.OutFile opts <> "" ->
     abs (GolrArgs.OutFile opts) = inr e ->
     GolrArgs.main os parse abs args pchan oss =
       Some ([Println [AStr "*** Error:"; AStr e]], 1)) /\
  (forall opts srcs outfile,
     parse this = inl (opts, srcs) -> srcs <> [] ->
     GolrArgs.OutFile opts <> "" ->
     abs (GolrArgs.OutFile opts) = inl outfile ->
     GolrArgs.main os parse abs args pchan oss =
       if State_eqb
            (GolrArgs.state
               (fst (GolrArgs.loop oss
                       (GolrArgs.init os srcs (GolrArgs.Dirs opts) outfile
                          child pchan))))
            exiting
       then Some (snd (GolrArgs.loop oss
                         (GolrArgs.init os srcs (GolrArgs.Dirs opts) outfile
                            child pchan)) ++
                  [Printf "Done running\n" []], 0)
       else None) /\
  (forall t code,
     GolrArgs.main os parse abs args pchan oss = Some (t, code) ->
     (code = 1 /\ requests t = [] /\
      ((exists e, parse this = inr e /\ t = []) \/
       (exists opts srcs,
          parse this = inl (opts, srcs) /\
          ((srcs = [] /\
            t = [Println [AStr "*** Error:"; AStr "No source files"]]) \/
           (srcs <> [] /\ GolrArgs.OutFile opts = "" /\
            t = [Println [AStr "*** Error:"; AStr "No output file"]]) \/
           (srcs <> [] /\ GolrArgs.OutFile opts <> "" /\
            exists e, abs (GolrArgs.OutFile opts) = inr e /\
                      t = [Println [AStr "*** Error:"; AStr e]]))))) \/
     (code = 0 /\
      exists opts srcs outfile,
        parse this = inl (opts, srcs) /\
        srcs <> [] /\ GolrArgs.OutFile opts <> "" /\
        abs (GolrArgs.OutFile opts) = inl outfile /\
        GolrArgs.state
          (fst (GolrArgs.loop oss
                  (GolrArgs.init os srcs (GolrArgs.Dirs opts) outfile
                     child pchan))) = exiting /\
        t = snd (GolrArgs.loop oss
                   (GolrArgs.init os srcs (GolrArgs.Dirs opts) outfile
                      child pchan)) ++
            [Printf "Done running\n" []])).
Proof.
  cbv zeta. unfold GolrArgs.main.
  destruct (GolrArgs.split_args args) as [this child]. cbn [fst snd].
  split; [|split; [|split; [|split; [|split]]]].
  - intros e ->. reflexivity.
  - intros opts ->. reflexivity.
  - intros opts srcs -> Hne Hout.
    destruct srcs; [congruence|]. cbn [List.length Nat.eqb].
    rewrite Hout. reflexivity.
  - intros opts srcs e -> Hne Hout Habs.
    destruct srcs; [congruence|]. cbn [List.length Nat.eqb].
    destruct (Nat.eqb (String.length (GolrArgs.OutFile opts)) 0) eqn:Hlen;
      [apply length_zero_empty in Hlen; congruence|].
    rewrite Habs. reflexivity.
  - intros opts srcs outfile -> Hne Hout Habs.
    destruct srcs; [congruence|]. cbn [List.length Nat.eqb].
    destruct (Nat.eqb (String.length (GolrArgs.OutFile opts)) 0) eqn:Hlen;
      [apply length_zero_empty in Hlen; congruence|].
    rewrite Habs.
    destruct (GolrArgs.loop oss _) as [m t]. cbn [fst snd].
    destruct (GolrArgs.state m); reflexivity.
  - intros t code.
    destruct (parse this) as [[opts srcs]|e] eqn:Hparse.
    + destruct (Nat.eqb (List.length srcs) 0) eqn:Hsrcs.
      { apply no_sources_iff in Hsrcs. intros [= <- <-]. left.
        split; [reflexivity|]. split; [reflexivity|]. right.
        exists opts, srcs. auto. }
      assert (Hne : srcs <> []).
      { intros Heq. apply no_sources_iff in Heq. congruence. }
      destruct (Nat.eqb (String.length (GolrArgs.OutFile opts)) 0) eqn:Hout.
      { apply length_zero_empty in Hout. intros [= <- <-]. left.
        split; [reflexivity|]. split; [reflexivity|]. right.
        exists opts, srcs. auto 6. }
      assert (Hno : GolrArgs.OutFile opts <> "").
      { intros Heq. apply length_zero_empty in Heq. congruence. }
      destruct (abs (GolrArgs.OutFile opts)) as [outfile|e] eqn:Habs.
      * destruct (GolrArgs.loop oss _) as [m t'] eqn:Hloop.
        destruct (GolrArgs.state m) eqn:Hst; try discriminate.
        intros [= <- <-]. right. split; [reflexivity|].
        exists opts, srcs, outfile. rewrite Hloop. cbn [fst snd]. auto 8.
      * intros [= <- <-]. left.
        split; [reflexivity|]. split; [reflexivity|]. right.
        exists opts, srcs. split; [reflexivity|]. right. right. eauto 6.
    + intros [= <- <-]. left.
      split; [reflexivity|]. split; [reflexivity|]. left. eauto.
Qed.

Lemma args_main_exit_status_sample :
  GolrArgs.main os_build_ok parse_sample abs_tmp ["-h"; "--"; "x"] 0%nat
    [os_build_ok] = Some ([], 1) /\
  GolrArgs.main os_build_ok parse_sample abs_tmp ["-o"; "srv"; "--"; "x"] 0%nat
    [os_build_ok] =
    Some ([Println [AStr "*** Error:"; AStr "No source files"]], 1) /\
  GolrArgs.main os_build_ok parse_sample abs_tmp ["-o"; ""; "main.go"] 0%nat
    [os_build_ok] =
    Some ([Println [AStr "*** Error:"; AStr "No output file"]], 1) /\
  GolrArgs.main os_build_ok parse_sample abs_fails ["main.go"] 0%nat
    [os_build_ok] =
    Some ([Println [AStr "*** Error:"; AStr "getwd: no such file"]], 1) /\
  GolrArgs.main os_build_ok parse_sample abs_tmp ["main.go"; "--"; "-v"] 0%nat
    [os_build_ok] = None.
Proof.
  split; [|split; [|split; [|split]]].
  - apply (proj1 (args_main_exit_status os_build_ok parse_sample abs_tmp
                    ["-h"; "--"; "x"] 0%nat [os_build_ok])
             "help requested" eq_refl).
  - apply (proj1 (proj2 (args_main_exit_status os_build_ok parse_sample abs_tmp
                           ["-o"; "srv"; "--"; "x"] 0%nat [os_build_ok]))
             {| GolrArgs.OutFile := "srv"; GolrArgs.Dirs := [] |} eq_refl).
  - apply (proj1 (proj2 (proj2 (args_main_exit_status os_build_ok parse_sample
                                  abs_tmp ["-o"; ""; "main.go"] 0%nat
                                  [os_build_ok])))
             {| GolrArgs.OutFile := ""; GolrArgs.Dirs := [] |} ["main.go"]
             eq_refl); [discriminate | reflexivity].
  - apply (proj1 (proj2 (proj2 (proj2
             (args_main_exit_status os_build_ok parse_sample abs_fails
                ["main.go"] 0%nat [os_build_ok]))))
             {| GolrArgs.OutFile := "lr-bin"; GolrArgs.Dirs := [] |} ["main.go"]
             "getwd: no such file" eq_refl);
      [discriminate | discriminate | reflexivity].
  - rewrite (proj1 (proj2 (proj2 (proj2 (proj2
               (args_main_exit_status os_build_ok parse_sample abs_tmp
                  ["main.go"; "--"; "-v"] 0%nat [os_build_ok])))))
               {| GolrArgs.OutFile := "lr-bin"; GolrArgs.Dirs := [] |}
               ["main.go"] "/tmp/lr-bin" eq_refl
               ltac:(discriminate) ltac:(discriminate) eq_refl).
    reflexivity.
Defined.
